(** * DB API v2 tracing hooks: a shallow embedding of
      [opentracing_instrumentation/client_hooks/_dbapi2.py]

    The Python module wraps the connect function, the connections and the
    cursors of a PEP-249 driver so that every call runs inside a tracing span.
    The embedding keeps the shape of the module:

    - Python values that travel through the hooks (SQL parameters, positional
      arguments) are an inductive type [pyval] with Python's truth test and
      Python's [str];
    - keyword-argument dictionaries are objects: they live in a store and are
      named by address, so that aliasing ([safe_kwargs = kwargs]) and copying
      ([dict(kwargs)]) are what the source says they are;
    - every function that raises, reads the ambient span or calls the driver
      is a computation in the monad [M] (state plus exceptions); the state
      carries the log of everything the tracer and the driver were asked
      to do;
    - the driver is a parameter: a real cursor or connection is the record of
      the outcomes (a value returned or an exception raised) of its entry
      points, and every statement below holds for all of them.

    The attributes that the wrappers only bind to the real object ([close],
    [fetchone], [fetchmany], [fetchall] and the optional extensions) add no
    behaviour to the calls; what the constructors bind is modelled apart, on
    the attribute namespace of the real object. *)

From Stdlib Require Import Ascii String ZArith Lia.
From stdpp Require Import gmap strings list pretty.

Set Warnings "-register-all".

(** ** Python values *)

Inductive pyval : Type :=
| PyNone
| PyBool (b : bool)
| PyInt (z : Z)
| PyStr (s : string)
| PyList (l : list pyval)
| PyTuple (l : list pyval)
| PyDict (d : list (pyval * pyval))
| PyObj (label : string).

(** [bool(v)]: [None], [False], zero and the empty containers are false. *)
Definition py_truthy (v : pyval) : bool :=
  match v with
  | PyNone => false
  | PyBool b => b
  | PyInt z => negb (z =? 0)%Z
  | PyStr s => negb (String.eqb s "")
  | PyList l | PyTuple l => negb (bool_decide (l = []))
  | PyDict d => negb (bool_decide (d = []))
  | PyObj _ => true
  end.

(** *** [repr] of a byte string *)

Definition quote1 : ascii := "039"%char.
Definition quote2 : ascii := "034"%char.
Definition backslash : ascii := "092"%char.

Fixpoint str_contains (c : ascii) (s : string) : bool :=
  match s with
  | EmptyString => false
  | String a r => if Ascii.eqb a c then true else str_contains c r
  end.

Definition hex_digit (n : N) : ascii :=
  match n with
  | 10 => "a" | 11 => "b" | 12 => "c" | 13 => "d" | 14 => "e" | 15 => "f"
  | _ => ascii_of_N (48 + n)
  end%N%char.

Definition repr_char (q a : ascii) : string :=
  let n := N_of_ascii a in
  if Ascii.eqb a backslash then String backslash (String backslash "")
  else if Ascii.eqb a q then String backslash (String q "")
  else if Ascii.eqb a "009"%char then String backslash "t"
  else if Ascii.eqb a "010"%char then String backslash "n"
  else if Ascii.eqb a "013"%char then String backslash "r"
  else if ((n <? 32) || (127 <=? n))%N
       then String backslash
              (String "x" (String (hex_digit (n / 16)) (String (hex_digit (n mod 16)) "")))
  else String a "".

Fixpoint repr_chars (q : ascii) (s : string) : string :=
  match s with
  | EmptyString => EmptyString
  | String a r => repr_char q a +:+ repr_chars q r
  end.

Definition repr_string (s : string) : string :=
  let q := if str_contains quote1 s && negb (str_contains quote2 s)
           then quote2 else quote1 in
  String q (repr_chars q s +:+ String q "").

Fixpoint join (sep : string) (l : list string) : string :=
  match l with
  | [] => ""
  | [x] => x
  | x :: r => x +:+ sep +:+ join sep r
  end.

(** *** [repr] and [str] of a value *)

Fixpoint py_repr (v : pyval) : string :=
  match v with
  | PyNone => "None"
  | PyBool true => "True"
  | PyBool false => "False"
  | PyInt z => pretty z
  | PyStr s => repr_string s
  | PyList l =>
      "[" +:+ join ", " ((fix each l := match l with
                                        | [] => []
                                        | x :: r => py_repr x :: each r
                                        end) l) +:+ "]"
  | PyTuple l =>
      match l with
      | [x] => "(" +:+ py_repr x +:+ ",)"
      | _ => "(" +:+ join ", " ((fix each l := match l with
                                               | [] => []
                                               | x :: r => py_repr x :: each r
                                               end) l) +:+ ")"
      end
  | PyDict d =>
      "{" +:+ join ", " ((fix each d := match d with
                                        | [] => []
                                        | (k, x) :: r =>
                                            (py_repr k +:+ ": " +:+ py_repr x) :: each r
                                        end) d) +:+ "}"
  | PyObj label => "<" +:+ label +:+ ">"
  end.

Definition py_str (v : pyval) : string :=
  match v with
  | PyStr s => s
  | _ => py_repr v
  end.

(** ** String methods used by the hooks *)

(** [s.lstrip()], [s.rstrip()] and [s.strip()] with no argument: white space
    is TAB, LF, VT, FF, CR and the blank. *)
Fixpoint lstrip (s : string) : string :=
  match s with
  | EmptyString => EmptyString
  | String a r => if Ascii.is_space a then lstrip r else s
  end.

Fixpoint rstrip (s : string) : string :=
  match s with
  | EmptyString => EmptyString
  | String a r =>
      match rstrip r with
      | EmptyString => if Ascii.is_space a then EmptyString else String a EmptyString
      | r' => String a r'
      end
  end.

Definition strip (s : string) : string := rstrip (lstrip s).

(** [s.find(c)] for a one-character needle: the index of the first
    occurrence, [-1] when there is none. *)
Fixpoint find (c : ascii) (s : string) : Z :=
  match s with
  | EmptyString => (-1)%Z
  | String a r =>
      if Ascii.eqb a c then 0%Z
      else let i := find c r in if (i =? -1)%Z then (-1)%Z else (i + 1)%Z
  end.

Fixpoint str_take (n : nat) (s : string) : string :=
  match n, s with
  | S n', String a r => String a (str_take n' r)
  | _, _ => EmptyString
  end.

(** [s[0:stop]]: a negative [stop] counts from the end of the string. *)
Definition slice0 (s : string) (stop : Z) : string :=
  let len := Z.of_nat (String.length s) in
  let stop := if (stop <? 0)%Z then Z.max 0 (stop + len) else stop in
  str_take (Z.to_nat stop) s.

(** ** Exceptions, spans and the world *)

Record exn : Type := Exn { exn_type : string; exn_msg : string }.

Inductive outcome (A : Type) : Type :=
| Return (a : A)
| Raise (e : exn).
Arguments Return {A} a.
Arguments Raise {A} e.

Record span : Type := Span { operation_name : string; tags : gmap string string }.

(** The driver entry points the hooks call. *)
Inductive method : Type :=
| m_connect | m_cursor | m_commit | m_rollback | m_enter | m_exit
| m_execute | m_executemany | m_callproc.

(** What the tracer and the driver see, in program order. *)
Inductive event : Type :=
| SpanStarted (parent : option span) (sp : span)
| SpanFinished (sp : span) (failed : bool)
| DriverCalled (m : method) (args : list pyval) (kwargs : gmap string pyval).

Record world : Type := World {
  current_span : option span;
  trace : list event;
  store : list (gmap string pyval)
}.

Definition M (A : Type) : Type := world -> outcome A * world.

Global Instance M_ret : MRet M := fun A a w => (Return a, w).

Global Instance M_bind : MBind M := fun A B k m w =>
  match m w with
  | (Return a, w') => k a w'
  | (Raise e, w') => (Raise e, w')
  end.

Definition raise {A : Type} (e : exn) : M A := fun w => (Raise e, w).

Definition log (e : event) : M unit := fun w =>
  (Return tt, World (current_span w) (trace w ++ [e]) (store w)).

(** A call into the driver: the call is logged with the arguments it
    receives and ends the way the driver decides. *)
Definition call_driver {A : Type} (m : method) (args : list pyval)
    (kwargs : gmap string pyval) (result : outcome A) : M A := fun w =>
  (result, World (current_span w) (trace w ++ [DriverCalled m args kwargs]) (store w)).

(** An [if] with no [else] branch. *)
Definition when (b : bool) (body : M unit) : M unit :=
  if b then body else mret tt.

(** *** Dictionary objects *)

Definition KeyError (k : string) : exn := Exn "KeyError" (repr_string k).

(** A fresh dictionary object, as built for [**kwargs] at a call. *)
Definition new_dict (d : gmap string pyval) : M nat := fun w =>
  (Return (length (store w)), World (current_span w) (trace w) (store w ++ [d])).

Definition dict_get (a : nat) : M (gmap string pyval) := fun w =>
  (Return (default ∅ (store w !! a)), w).

(** [k in d] *)
Definition dict_contains (a : nat) (k : string) : M bool :=
  d ← dict_get a; mret (bool_decide (is_Some (d !! k))).

(** [bool(d)] *)
Definition dict_truthy (a : nat) : M bool :=
  d ← dict_get a; mret (negb (bool_decide (d = ∅))).

(** [dict(d)]: a new object with the same items. *)
Definition dict_copy (a : nat) : M nat :=
  d ← dict_get a; new_dict d.

(** [del d[k]]: the object at [a] is updated in place. *)
Definition dict_del (a : nat) (k : string) : M unit := fun w =>
  let d := default ∅ (store w !! a) in
  match d !! k with
  | Some _ => (Return tt, World (current_span w) (trace w) (<[a := delete k d]> (store w)))
  | None => (Raise (KeyError k), w)
  end.

(** ** The tracing collaborators *)

(** Modelled from the spec: [get_current_span] of the package's
    [__init__.py], which is not among the sources.  It looks up the ambient
    span and returns it, or [None]. *)
Definition get_current_span : M (option span) := fun w =>
  (Return (current_span w), w).

(** Modelled from the spec: [Span.start_child] of the tracer.  It starts a
    span with the given operation name and tags under [parent] and
    returns it. *)
Definition start_child (parent : span) (operation_name : string)
    (tags : gmap string string) : M span :=
  let sp := Span operation_name tags in
  log (SpanStarted (Some parent) sp);; mret sp.

(** The objects a [with] statement of this module is handed. *)
Inductive scope : Type :=
| empty_ctx_mgr                 (* the function decorated by [contextlib2.contextmanager] *)
| empty_ctx_mgr_call            (* the context manager that calling it would build *)
| span_scope (sp : span).       (* a span of the tracer *)

(** [with cm: body].  A function object has neither [__enter__] nor
    [__exit__], so the statement raises before the body runs.  The generator
    based manager yields once and does nothing else.  Modelled from the spec:
    a span's scoped acquire/release closes the span on exit, marks it failed
    when the body raised, and lets the exception through. *)
Definition with_ {A : Type} (cm : scope) (body : M A) : M A :=
  match cm with
  | empty_ctx_mgr => raise (Exn "AttributeError" "__exit__")
  | empty_ctx_mgr_call => body
  | span_scope sp => fun w =>
      match body w with
      | (Return a, w') => (log (SpanFinished sp false);; mret a) w'
      | (Raise e, w') => (log (SpanFinished sp true);; raise e) w'
      end
  end.

(** Modelled from the spec: [func_span] of [local_span.py], which is not
    among the sources.  It starts a span named after the function, with no
    tags, and returns it as a scoped resource. *)
Definition func_span (name : string) : M scope :=
  parent ← get_current_span;
  let sp := Span name ∅ in
  log (SpanStarted parent sp);; mret (span_scope sp).

(** ** [db_span] *)

Definition _COMMIT : string := "commit".
Definition _ROLLBACK : string := "rollback".

(** [connect_params] and [cursor_params]: a pair of the positional arguments
    and of the keyword dictionary object. *)
Definition call_args : Type := list pyval * nat.

Definition dict_items (d : gmap string pyval) : list (pyval * pyval) :=
  (fun kv => (PyStr kv.1, kv.2)) <$> map_to_list d.

(** [str((args, kwargs))] *)
Definition str_call_args (p : call_args) : M string :=
  d ← dict_get p.2;
  mret (py_str (PyTuple [PyTuple p.1; PyDict (dict_items d)])).

Definition db_span (sql_statement module_name : string)
    (sql_parameters : pyval) (connect_params cursor_params : option call_args)
  : M scope :=
  span ← get_current_span;
  match span with
  | None => mret empty_ctx_mgr
  | Some span =>
      let statement := strip sql_statement in
      let '(operation, add_sql_tag) :=
        if bool_decide (sql_statement = _COMMIT)
           || bool_decide (sql_statement = _ROLLBACK)
        then (sql_statement, false)
        else
          let space_idx := find " " statement in
          (if (space_idx =? -1)%Z then "" else slice0 statement space_idx, true) in
      let tags : gmap string string := ∅ in
      let tags := if add_sql_tag then <["sql" := statement]> tags else tags in
      let tags := if py_truthy sql_parameters
                  then <["sql.params" := py_str sql_parameters]> tags else tags in
      tags ← match connect_params with
             | Some p => s ← str_call_args p; mret (<["sql.conn" := s]> tags)
             | None => mret tags
             end;
      tags ← match cursor_params with
             | Some p => s ← str_call_args p; mret (<["sql.cursor" := s]> tags)
             | None => mret tags
             end;
      sp ← start_child span (module_name +:+ ":" +:+ operation) tags;
      mret (span_scope sp)
  end.

(** ** The wrapped driver *)

(** The real objects are the driver's: each entry point is given by the
    outcome the driver decides on the arguments it receives. *)
Record cursor : Type := Cursor {
  cursor_execute : list pyval -> outcome pyval;
  cursor_executemany : list pyval -> outcome pyval;
  cursor_callproc : list pyval -> outcome pyval
}.

Record connection : Type := Connection {
  connection_cursor : list pyval -> gmap string pyval -> outcome cursor;
  connection_commit : outcome pyval;
  connection_rollback : outcome pyval;
  connection_enter : outcome cursor;
  connection_exit : pyval -> pyval -> pyval -> outcome pyval
}.

(** The connect function: what it does when called, its [__name__] when it
    has one, and its [str]. *)
Record connect_func : Type := ConnectFunc {
  connect_call : list pyval -> gmap string pyval -> outcome connection;
  connect_name : option string;
  connect_str : string
}.

(** ** [CursorWrapper] *)

Module CursorWrapper.

Record t : Type := Build {
  _cursor : cursor;
  _module_name : string;
  _connect_params : option call_args;
  _cursor_params : option call_args
}.

(** [params = None] stands for the sentinel [NO_ARG]. *)
Definition execute (self : t) (sql : string) (params : option pyval) : M pyval :=
  cm ← db_span sql (_module_name self)
         (match params with Some p => p | None => PyNone end)
         (_connect_params self) (_cursor_params self);
  with_ cm
    match params with
    | None =>
        call_driver m_execute [PyStr sql] ∅
          (cursor_execute (_cursor self) [PyStr sql])
    | Some p =>
        call_driver m_execute [PyStr sql; p] ∅
          (cursor_execute (_cursor self) [PyStr sql; p])
    end.

Definition executemany (self : t) (sql : string) (seq_of_parameters : pyval)
  : M pyval :=
  cm ← db_span sql (_module_name self) seq_of_parameters
         (_connect_params self) (_cursor_params self);
  with_ cm
    (call_driver m_executemany [PyStr sql; seq_of_parameters] ∅
       (cursor_executemany (_cursor self) [PyStr sql; seq_of_parameters])).

Definition callproc (self : t) (proc_name : string) (params : option pyval)
  : M pyval :=
  cm ← db_span ("sproc:" +:+ proc_name) (_module_name self)
         (match params with Some p => p | None => PyNone end)
         (_connect_params self) (_cursor_params self);
  with_ cm
    match params with
    | None =>
        call_driver m_callproc [PyStr proc_name] ∅
          (cursor_callproc (_cursor self) [PyStr proc_name])
    | Some p =>
        call_driver m_callproc [PyStr proc_name; p] ∅
          (cursor_callproc (_cursor self) [PyStr proc_name; p])
    end.

End CursorWrapper.

(** ** [ConnectionWrapper] and [ContextManagerConnectionWrapper] *)

(** The two wrapper classes of the module; the second extends the first and
    adds no field. *)
Inductive wrapper_class : Type :=
| ConnectionWrapper_class
| ContextManagerConnectionWrapper_class.

Module ConnectionWrapper.

Record t : Type := Build {
  class : wrapper_class;
  _connection : connection;
  _module_name : string;
  _connect_params : option call_args
}.

Definition __init__ (connection : connection) (module_name : string)
    (connect_params : option call_args) : M t :=
  mret (Build ConnectionWrapper_class connection module_name connect_params).

Definition cursor (self : t) (args : list pyval) (kw : gmap string pyval)
  : M CursorWrapper.t :=
  kwargs ← new_dict kw;
  live ← dict_get kwargs;
  cursor ← call_driver m_cursor args live
             (connection_cursor (_connection self) args live);
  nonempty ← dict_truthy kwargs;
  mret (CursorWrapper.Build cursor (_module_name self) (_connect_params self)
          (if py_truthy (PyTuple args) || nonempty
           then Some (args, kwargs) else None)).

Definition commit (self : t) : M pyval :=
  cm ← db_span _COMMIT (_module_name self) PyNone None None;
  with_ cm (call_driver m_commit [] ∅ (connection_commit (_connection self))).

Definition rollback (self : t) : M pyval :=
  cm ← db_span _ROLLBACK (_module_name self) PyNone None None;
  with_ cm (call_driver m_rollback [] ∅ (connection_rollback (_connection self))).

End ConnectionWrapper.

Module ContextManagerConnectionWrapper.

Import ConnectionWrapper.

Definition __init__ (connection : connection) (module_name : string)
    (connect_params : option call_args) : M t :=
  mret (Build ContextManagerConnectionWrapper_class
          connection module_name connect_params).

Definition __enter__ (self : t) : M CursorWrapper.t :=
  cm ← func_span (_module_name self +:+ ":begin_transaction");
  cursor ← with_ cm
             (call_driver m_enter [] ∅ (connection_enter (_connection self)));
  mret (CursorWrapper.Build cursor (_module_name self)
          (_connect_params self) None).

Definition __exit__ (self : t) (exc value tb : pyval) : M pyval :=
  let outcome :=
    match exc with PyNone => _COMMIT | _ => _ROLLBACK end in
  cm ← db_span outcome (_module_name self) PyNone None None;
  with_ cm
    (call_driver m_exit [exc; value; tb] ∅
       (connection_exit (_connection self) exc value tb)).

End ContextManagerConnectionWrapper.

(** ** [ConnectionFactory] *)

Module ConnectionFactory.

Record t : Type := Build {
  _connect_func : connect_func;
  _module_name : string;
  _connect_func_name : string;
  _wrapper_ctor : wrapper_class
}.

Definition __init__ (connect_func : connect_func) (module_name : string)
    (conn_wrapper_ctor : option wrapper_class) : t :=
  Build connect_func module_name
    (match connect_name connect_func with
     | Some name => module_name +:+ ":" +:+ name
     | None => module_name +:+ ":" +:+ connect_str connect_func
     end)
    (match conn_wrapper_ctor with
     | Some ctor => ctor
     | None => ConnectionWrapper_class
     end).

(** Calling the class object stored in [_wrapper_ctor]. *)
Definition construct (ctor : wrapper_class) (connection : connection)
    (module_name : string) (connect_params : option call_args)
  : M ConnectionWrapper.t :=
  match ctor with
  | ConnectionWrapper_class =>
      ConnectionWrapper.__init__ connection module_name connect_params
  | ContextManagerConnectionWrapper_class =>
      ContextManagerConnectionWrapper.__init__ connection module_name connect_params
  end.

Definition __call__ (self : t) (args : list pyval) (kw : gmap string pyval)
  : M ConnectionWrapper.t :=
  kwargs ← new_dict kw;
  let safe_kwargs := kwargs in
  has_passwd ← dict_contains safe_kwargs "passwd";
  has_password ← dict_contains safe_kwargs "password";
  safe_kwargs ←
    (if has_passwd || has_password then
       safe_kwargs ← dict_copy kwargs;
       has_passwd ← dict_contains safe_kwargs "passwd";
       when has_passwd (dict_del safe_kwargs "passwd");;
       has_password ← dict_contains safe_kwargs "password";
       when has_password (dict_del safe_kwargs "password");;
       mret safe_kwargs
     else mret safe_kwargs) : M nat;
  nonempty ← dict_truthy safe_kwargs;
  let connect_params :=
    if py_truthy (PyTuple args) || nonempty
    then Some (args, safe_kwargs) else None in
  cm ← func_span (_connect_func_name self);
  with_ cm
    (live ← dict_get kwargs;
     connection ← call_driver m_connect args live
                    (connect_call (_connect_func self) args live);
     construct (_wrapper_ctor self) connection (_module_name self) connect_params).

End ConnectionFactory.

(** ** Reading a trace *)

Definition spans_started (t : list event) : list span :=
  omap (fun e => match e with SpanStarted _ sp => Some sp | _ => None end) t.

Definition driver_calls (t : list event)
  : list (method * list pyval * gmap string pyval) :=
  omap (fun e => match e with
                 | DriverCalled m args kwargs => Some (m, args, kwargs)
                 | _ => None
                 end) t.

Definition raised {A : Type} (r : outcome A) : bool :=
  match r with Return _ => false | Raise _ => true end.

(** The object a caller holds after connecting is either the driver's
    connection or one of the wrappers of this module. *)
Inductive connected : Type :=
| driver_connection (c : connection)
| wrapper (p : ConnectionWrapper.t).

(** The string recorded for [connect_params] or [cursor_params] when the
    store is [st]. *)
Definition rendered (st : list (gmap string pyval)) (p : call_args) : string :=
  py_str (PyTuple [PyTuple p.1; PyDict (dict_items (default ∅ (st !! p.2)))]).

(** A run that started one span under [parent], made the driver call [m]
    with the positional arguments [a], finished the span marked failed exactly
    when the call raised, changed nothing else, and ended as the call did. *)
Definition traced {A : Type} (parent : span) (tr : list event)
    (st : list (gmap string pyval)) (run : outcome A * world)
    (m : method) (a : list pyval) (r : outcome A) : Prop :=
  exists sp,
    run = (r, World (Some parent)
                (tr ++ [SpanStarted (Some parent) sp; DriverCalled m a ∅;
                        SpanFinished sp (raised r)]) st).

(** ** A driver to run the hooks on *)

Definition a_cursor : cursor :=
  Cursor (fun args => Return (PyInt (Z.of_nat (length args))))
         (fun _ => Raise (Exn "ProgrammingError" "syntax"))
         (fun args => Return (PyList args)).

Definition a_connection : connection :=
  Connection (fun _ _ => Return a_cursor)
             (Return PyNone)
             (Raise (Exn "OperationalError" "gone away"))
             (Return a_cursor)
             (fun _ _ _ => Return (PyBool true)).

Definition a_connect : connect_func :=
  ConnectFunc (fun _ _ => Return a_connection) (Some "connect") "<connect>".

Definition root : span := Span "request" ∅.

Definition a_cursor_wrapper : CursorWrapper.t :=
  CursorWrapper.Build a_cursor "MySQLdb" None None.

Definition a_connection_wrapper : ConnectionWrapper.t :=
  ConnectionWrapper.Build ContextManagerConnectionWrapper_class
    a_connection "MySQLdb" None.

Definition a_factory : ConnectionFactory.t :=
  ConnectionFactory.__init__ a_connect "MySQLdb" None.

(** Connect, take a cursor, run a query, commit. *)
Definition a_session : M pyval :=
  conn ← ConnectionFactory.__call__ a_factory [] ∅;
  cur ← ConnectionWrapper.cursor conn [] ∅;
  CursorWrapper.execute cur "SELECT 1" None;;
  ConnectionWrapper.commit conn.

(** ** Spans left open *)

Definition spans_finished (t : list event) : list span :=
  omap (fun e => match e with SpanFinished sp _ => Some sp | _ => None end) t.

(** From [w] to [w'] at most one span was started, and every span started
    was finished. *)
Definition bracketed (w w' : world) : Prop :=
  exists new,
    length new <= 1 /\
    spans_started (trace w') = spans_started (trace w) ++ new /\
    spans_finished (trace w') = spans_finished (trace w) ++ new.

(** ** Attributes bound at construction *)

(** The attribute namespace of a driver object, as [getattr] and [hasattr]
    see it: the names it has and the value behind each. *)
Global Instance outcome_ret : MRet outcome := fun A a => Return a.

Global Instance outcome_bind : MBind outcome := fun A B k r =>
  match r with
  | Return a => k a
  | Raise e => Raise e
  end.

(** The message is cut down to the name of the missing attribute. *)
Definition AttributeError (name : string) : exn := Exn "AttributeError" name.

(** [obj.name] *)
Definition getattr (obj : gmap string pyval) (name : string) : outcome pyval :=
  match obj !! name with
  | Some v => Return v
  | None => Raise (AttributeError name)
  end.

Definition hasattr (obj : gmap string pyval) (name : string) : bool :=
  bool_decide (is_Some (obj !! name)).

(** [object.__setattr__(self, name, obj.name)] *)
Definition bind_attr (obj : gmap string pyval) (name : string)
    (self : gmap string pyval) : outcome (gmap string pyval) :=
  v ← getattr obj name; mret (<[name := v]> self).

(** [if hasattr(obj, name): object.__setattr__(self, name, obj.name)] *)
Definition bind_attr_if_present (obj : gmap string pyval) (name : string)
    (self : gmap string pyval) : outcome (gmap string pyval) :=
  if hasattr obj name then bind_attr obj name self else mret self.

(** The attributes that [ConnectionWrapper.__init__] binds on the wrapper
    with [object.__setattr__]. *)
Definition ConnectionWrapper_bindings (connection : gmap string pyval)
  : outcome (gmap string pyval) :=
  bind_attr connection "close" ∅.

(** The attributes that [CursorWrapper.__init__] binds on the wrapper with
    [object.__setattr__], in the order of the source. *)
Definition CursorWrapper_bindings (cursor : gmap string pyval)
  : outcome (gmap string pyval) :=
  self ← bind_attr cursor "fetchone" ∅;
  self ← bind_attr cursor "fetchmany" self;
  self ← bind_attr cursor "fetchall" self;
  self ← bind_attr cursor "close" self;
  self ← bind_attr_if_present cursor "nextset" self;
  self ← bind_attr_if_present cursor "setinputsizes" self;
  bind_attr_if_present cursor "setoutputsizes" self.

(** The names a cursor must have, and the names a cursor wrapper can have. *)
Definition cursor_required : list string :=
  ["fetchone"; "fetchmany"; "fetchall"; "close"].

Definition cursor_forwarded : list string :=
  cursor_required ++ ["nextset"; "setinputsizes"; "setoutputsizes"].

(** ** Facts on the string methods *)

Lemma find_lower c s : (-1 <= find c s)%Z.
Proof.
  induction s as [|a r IH]; simpl; [lia|].
  destruct (Ascii.eqb a c); [lia|].
  destruct (find c r =? -1)%Z; lia.
Qed.

Lemma find_absent c s : find c s = (-1)%Z <-> str_contains c s = false.
Proof.
  induction s as [|a r IH]; simpl; [tauto|].
  destruct (Ascii.eqb a c); [split; intros; discriminate|].
  pose proof (find_lower c r).
  destruct (Z.eqb_spec (find c r) (-1)) as [E|E].
  - tauto.
  - split; [lia | intros H'; apply IH in H'; contradiction].
Qed.

(** When the needle occurs, [find] cuts the string just before its first
    occurrence. *)
Lemma find_present c s :
  find c s <> (-1)%Z ->
  exists rest,
    s = slice0 s (find c s) +:+ String c rest /\
    str_contains c (slice0 s (find c s)) = false.
Proof.
  unfold slice0. induction s as [|a r IH]; simpl; [congruence|].
  destruct (Ascii.eqb_spec a c) as [->|Hac].
  - intros _. exists r. simpl. split; reflexivity.
  - pose proof (find_lower c r) as Hlow.
    destruct (Z.eqb_spec (find c r) (-1)) as [E|E]; [congruence|].
    intros _. destruct (IH E) as (rest & Hs & Hn). clear IH.
    replace (find c r <? 0)%Z with false in * by (symmetry; apply Z.ltb_ge; lia).
    replace (find c r + 1 <? 0)%Z with false by (symmetry; apply Z.ltb_ge; lia).
    replace (Z.to_nat (find c r + 1)) with (S (Z.to_nat (find c r))) by lia.
    exists rest. simpl. split.
    + change (String a r
              = String a (str_take (Z.to_nat (find c r)) r +:+ String c rest)).
      f_equal. exact Hs.
    + destruct (Ascii.eqb_spec a c); [contradiction | exact Hn].
Qed.

Lemma contains_lstrip c s :
  str_contains c s = false -> str_contains c (lstrip s) = false.
Proof.
  induction s as [|a r IH]; simpl; [auto|].
  destruct (Ascii.eqb a c) eqn:E; [discriminate|].
  intros H. destruct (Ascii.is_space a); [auto|]. simpl. rewrite E. exact H.
Qed.

Lemma contains_rstrip c s :
  str_contains c s = false -> str_contains c (rstrip s) = false.
Proof.
  induction s as [|a r IH]; simpl; [auto|].
  destruct (Ascii.eqb a c) eqn:E; [discriminate|].
  intros H. specialize (IH H).
  destruct (rstrip r) eqn:R.
  - destruct (Ascii.is_space a); simpl; [reflexivity | rewrite E; reflexivity].
  - simpl. rewrite E. exact IH.
Qed.

Lemma contains_strip c s :
  str_contains c s = false -> str_contains c (strip s) = false.
Proof. intros H. unfold strip. apply contains_rstrip, contains_lstrip, H. Qed.

Lemma contains_app c s1 s2 :
  str_contains c (s1 +:+ s2) = str_contains c s1 || str_contains c s2.
Proof.
  induction s1 as [|a r IH]; simpl; [reflexivity|].
  destruct (Ascii.eqb a c); [reflexivity | exact IH].
Qed.

(** Trailing white space is removed behind a prefix that does not end in
    white space. *)
Lemma rstrip_app s1 s2 :
  rstrip s1 = s1 -> s1 <> EmptyString ->
  rstrip (s1 +:+ s2) = s1 +:+ rstrip s2.
Proof.
  induction s1 as [|a r IH]; [congruence|].
  intros H _. change (String a r +:+ s2) with (String a (r +:+ s2)).
  change (String a r +:+ rstrip s2) with (String a (r +:+ rstrip s2)).
  cbn [rstrip] in *. destruct r as [|b r'].
  - change (EmptyString +:+ s2) with s2.
    change (EmptyString +:+ rstrip s2) with (rstrip s2).
    cbn [rstrip] in H. destruct (Ascii.is_space a); [discriminate|].
    destruct (rstrip s2); reflexivity.
  - assert (R : rstrip (String b r') = String b r').
    { destruct (rstrip (String b r')) eqn:R.
      - destruct (Ascii.is_space a); discriminate.
      - congruence. }
    rewrite IH by (auto; congruence).
    reflexivity.
Qed.

(** ** Running the hooks *)

(** Unfolding of the monad and of its primitive operations. *)
Ltac run :=
  cbv beta iota zeta delta
    [mbind M_bind mret M_ret raise log call_driver with_ when
     get_current_span start_child func_span
     new_dict dict_get dict_contains dict_truthy dict_copy
     current_span trace store fst snd].

Section Steps.
Context (cs : option span) (tr : list event) (st : list (gmap string pyval)).

Lemma new_dict_run d :
  new_dict d (World cs tr st) = (Return (length st), World cs tr (st ++ [d])).
Proof. reflexivity. Qed.

Lemma dict_get_run a d :
  st !! a = Some d -> dict_get a (World cs tr st) = (Return d, World cs tr st).
Proof. intros H. unfold dict_get. cbn. rewrite H. reflexivity. Qed.

Lemma dict_contains_run a d k :
  st !! a = Some d ->
  dict_contains a k (World cs tr st)
  = (Return (bool_decide (is_Some (d !! k))), World cs tr st).
Proof. intros H. unfold dict_contains. run. rewrite H. reflexivity. Qed.

Lemma dict_truthy_run a d :
  st !! a = Some d ->
  dict_truthy a (World cs tr st)
  = (Return (negb (bool_decide (d = ∅))), World cs tr st).
Proof. intros H. unfold dict_truthy. run. rewrite H. reflexivity. Qed.

Lemma dict_copy_run a d :
  st !! a = Some d ->
  dict_copy a (World cs tr st) = (Return (length st), World cs tr (st ++ [d])).
Proof. intros H. unfold dict_copy. run. rewrite H. reflexivity. Qed.

Lemma dict_del_run a d k :
  st !! a = Some d -> is_Some (d !! k) ->
  dict_del a k (World cs tr st)
  = (Return tt, World cs tr (<[a := delete k d]> st)).
Proof.
  intros H [v Hv]. unfold dict_del. cbn. rewrite H. cbn. rewrite Hv. reflexivity.
Qed.

End Steps.

(** Where the objects of the store are. *)
Lemma store_new (st : list (gmap string pyval)) d :
  (st ++ [d]) !! length st = Some d.
Proof. apply list_lookup_middle. reflexivity. Qed.

Lemma store_old (st : list (gmap string pyval)) a d e :
  st !! a = Some d -> (st ++ [e]) !! a = Some d.
Proof. intros H. rewrite lookup_app_l; [exact H | eapply lookup_lt_Some, H]. Qed.

Lemma store_updated (st : list (gmap string pyval)) a d x :
  st !! a = Some d -> <[a := x]> st !! a = Some x.
Proof. intros H. apply list_lookup_insert_eq. eapply lookup_lt_Some, H. Qed.

Lemma store_untouched (st : list (gmap string pyval)) a b d x :
  a <> b -> st !! b = Some d -> <[a := x]> st !! b = Some d.
Proof. intros Hne H. rewrite list_lookup_insert_ne; [exact H | exact Hne]. Qed.

Lemma store_fresh (st : list (gmap string pyval)) (d : gmap string pyval) :
  length (st ++ [d]) <> length st.
Proof. rewrite length_app. cbn. lia. Qed.

Create HintDb store.
#[local] Hint Resolve store_new store_old store_updated store_untouched store_fresh : store.

Lemma construct_run ctor conn m cp w :
  ConnectionFactory.construct ctor conn m cp w
  = (Return (ConnectionWrapper.Build ctor conn m cp), w).
Proof. destruct ctor; reflexivity. Qed.

Ltac lookup := solve [eauto 6 with store].

Ltac known_key :=
  repeat first
    [ rewrite (bool_decide_eq_true_2 (is_Some (Some _))) by eauto
    | rewrite (bool_decide_eq_false_2 (is_Some None)) by (apply is_Some_None) ];
  cbn [orb]; cbv beta iota delta [mret M_ret].

(** The part of [__call__] that follows the redaction, when the recorded
    dictionary is [d] and the live one is [kw]. *)
Ltac connect_and_wrap tr d kw :=
  cbv beta iota delta [mret M_ret];
  rewrite (dict_truthy_run _ _ _ _ d) by lookup;
  unfold func_span, with_, mbind, M_bind, get_current_span, log;
  cbv beta iota delta [mret M_ret current_span trace store];
  rewrite (dict_get_run _ _ _ _ kw) by lookup;
  unfold call_driver; cbv beta iota delta [current_span trace store];
  do 2 eexists; split;
  [ destruct (connect_call _ _ _); rewrite ?construct_run;
    cbv beta iota delta [raise raised current_span trace store];
    rewrite <- !(app_assoc tr); reflexivity
  | split; [lookup | split; [lookup |]];
    rewrite ?length_app; cbn [length]; lia ].

(** [__call__] from end to end: the keyword dictionary is stored, a redacted
    copy is made when a credential is present, the connect function is called
    with the stored dictionary inside the function span, and the wrapper is
    built around the connection. *)
Lemma factory_call_runs self args kw cs tr st :
  let redacted := delete "password" (delete "passwd" kw) in
  let r := connect_call (ConnectionFactory._connect_func self) args kw in
  let sp := Span (ConnectionFactory._connect_func_name self) ∅ in
  exists safe st',
    ConnectionFactory.__call__ self args kw (World cs tr st)
    = (match r with
       | Return conn =>
           Return (ConnectionWrapper.Build
                     (ConnectionFactory._wrapper_ctor self) conn
                     (ConnectionFactory._module_name self)
                     (if py_truthy (PyTuple args) || negb (bool_decide (redacted = ∅))
                      then Some (args, safe) else None))
       | Raise e => Raise e
       end,
       World cs (tr ++ [SpanStarted cs sp; DriverCalled m_connect args kw;
                        SpanFinished sp (raised r)]) st') /\
    st' !! length st = Some kw /\
    st' !! safe = Some redacted /\
    safe = length st +
           (if bool_decide (is_Some (kw !! "passwd"))
               || bool_decide (is_Some (kw !! "password")) then 1 else 0).
Proof.
  cbv zeta. unfold ConnectionFactory.__call__, mbind, M_bind, when.
  rewrite new_dict_run.
  rewrite !(dict_contains_run _ _ _ _ kw) by lookup.
  destruct (kw !! "passwd") as [v1|] eqn:E1;
    destruct (kw !! "password") as [v2|] eqn:E2; known_key.
  - (* both keys *)
    rewrite (dict_copy_run _ _ _ _ kw) by lookup.
    rewrite !(dict_contains_run _ _ _ _ kw) by lookup.
    rewrite E1. known_key.
    rewrite (dict_del_run _ _ _ _ kw) by (lookup || eauto).
    rewrite (dict_contains_run _ _ _ _ (delete "passwd" kw)) by lookup.
    rewrite lookup_delete_ne, E2 by discriminate. known_key.
    rewrite (dict_del_run _ _ _ _ (delete "passwd" kw))
      by (lookup || (rewrite lookup_delete_ne, E2 by discriminate; eauto)).
    connect_and_wrap tr (delete "password" (delete "passwd" kw)) kw.
  - (* [passwd] only *)
    rewrite (delete_id (delete "passwd" kw) "password")
      by (rewrite lookup_delete_ne by discriminate; exact E2).
    rewrite (dict_copy_run _ _ _ _ kw) by lookup.
    rewrite !(dict_contains_run _ _ _ _ kw) by lookup.
    rewrite E1. known_key.
    rewrite (dict_del_run _ _ _ _ kw) by (lookup || eauto).
    rewrite (dict_contains_run _ _ _ _ (delete "passwd" kw)) by lookup.
    rewrite lookup_delete_ne, E2 by discriminate. known_key.
    connect_and_wrap tr (delete "passwd" kw) kw.
  - (* [password] only *)
    rewrite (delete_id kw "passwd") by exact E1.
    rewrite (dict_copy_run _ _ _ _ kw) by lookup.
    rewrite !(dict_contains_run _ _ _ _ kw) by lookup.
    rewrite E1. known_key.
    rewrite (dict_contains_run _ _ _ _ kw) by lookup.
    rewrite E2. known_key.
    rewrite (dict_del_run _ _ _ _ kw) by (lookup || eauto).
    connect_and_wrap tr (delete "password" kw) kw.
  - (* no credential: the recorded dictionary is the live one *)
    rewrite (delete_id kw "passwd") by exact E1.
    rewrite (delete_id kw "password") by exact E2.
    connect_and_wrap tr kw kw.
Qed.

(** With a current span, [db_span] starts one child span, touches nothing
    else, and the span's name and tags are read off the arguments. *)
Lemma db_span_starts sql m p cp cup parent tr st :
  exists sp,
    db_span sql m p cp cup (World (Some parent) tr st)
    = (Return (span_scope sp),
       World (Some parent) (tr ++ [SpanStarted (Some parent) sp]) st) /\
    operation_name sp
    = m +:+ ":" +:+
      (if bool_decide (sql = _COMMIT) || bool_decide (sql = _ROLLBACK) then sql
       else if (find " " (strip sql) =? -1)%Z then ""
            else slice0 (strip sql) (find " " (strip sql))) /\
    tags sp !! "sql"
    = (if bool_decide (sql = _COMMIT) || bool_decide (sql = _ROLLBACK) then None
       else Some (strip sql)) /\
    tags sp !! "sql.params" = (if py_truthy p then Some (py_str p) else None) /\
    tags sp !! "sql.conn" = rendered st <$> cp /\
    tags sp !! "sql.cursor" = rendered st <$> cup.
Proof.
  unfold db_span, rendered.
  destruct (bool_decide (sql = _COMMIT) || bool_decide (sql = _ROLLBACK));
    destruct (py_truthy p); destruct cp as [[a1 k1]|]; destruct cup as [[a2 k2]|];
    eexists; (split; [reflexivity|]); cbn; repeat split; simplify_map_eq; reflexivity.
Qed.

(** A driver call made under the scope [db_span] returned: the call is made
    once, the span is finished after it, marked failed exactly when the call
    raised, and the call's own outcome is the outcome of the whole. *)
Lemma traced_call {A : Type} sql m p cp cup meth args kw (r : outcome A) w sp w' :
  db_span sql m p cp cup w = (Return (span_scope sp), w') ->
  (cm ← db_span sql m p cp cup; with_ cm (call_driver meth args kw r)) w
  = (r, World (current_span w')
          (trace w' ++ [DriverCalled meth args kw; SpanFinished sp (raised r)])
          (store w')).
Proof.
  intros H. unfold mbind, M_bind. rewrite H.
  destruct r; run; rewrite <- app_assoc; reflexivity.
Qed.

(** The context manager that calling [empty_ctx_mgr] builds is transparent:
    the body runs as if it stood alone. *)
Lemma with_empty_ctx_mgr_call {A : Type} (body : M A) :
  with_ empty_ctx_mgr_call body = body.
Proof. reflexivity. Qed.

(** Without a current span [db_span] hands back [empty_ctx_mgr] itself. *)
Lemma db_span_without_span sql m p cp cup tr st :
  db_span sql m p cp cup (World None tr st)
  = (Return empty_ctx_mgr, World None tr st).
Proof. reflexivity. Qed.

Lemma truthy_tuple (args : list pyval) :
  py_truthy (PyTuple args) = negb (bool_decide (args = [])).
Proof. reflexivity. Qed.

(** The test that decides whether [connect_params] is recorded. *)
Lemma recorded_test (args : list pyval) (d : gmap string pyval) :
  py_truthy (PyTuple args) || negb (bool_decide (d = ∅)) = false
  <-> args = [] /\ d = ∅.
Proof.
  rewrite truthy_tuple, orb_false_iff, !negb_false_iff, !bool_decide_eq_true.
  reflexivity.
Qed.

Lemma dict_items_absent (d : gmap string pyval) (k : string) (v : pyval) :
  d !! k = None -> (PyStr k, v) ∉ dict_items d.
Proof.
  intros Hk Hin. unfold dict_items in Hin.
  apply list_elem_of_fmap in Hin as ([k' v'] & Heq & Hin).
  apply elem_of_map_to_list in Hin. cbn in Heq. congruence.
Qed.

(** ** The claims *)

(** A whole session under a current span: three spans, in order, each
    finished before the next one starts. *)
Example a_session_trace :
  (a_session (World (Some root) [] [])).1 = Return PyNone /\
  (fun e => match e with
            | SpanStarted _ sp => ("start", operation_name sp)
            | SpanFinished sp _ => ("finish", operation_name sp)
            | DriverCalled _ _ _ => ("call", "")
            end) <$> trace (a_session (World (Some root) [] [])).2
  = [("start", "MySQLdb:connect"); ("call", ""); ("finish", "MySQLdb:connect");
     ("call", "");
     ("start", "MySQLdb:SELECT"); ("call", ""); ("finish", "MySQLdb:SELECT");
     ("start", "MySQLdb:commit"); ("call", ""); ("finish", "MySQLdb:commit")].
Proof. split; vm_compute; reflexivity. Qed.

(** C1, as the code has it.  When the current-span lookup returns [None],
    [db_span] returns the function [empty_ctx_mgr] and not the context manager
    that calling it would build; the [with] statement of every instrumented
    call then raises [AttributeError] before the driver is reached: the world
    is left as it was (no driver call is logged) and the caller gets that
    exception instead of the driver's result or exception. *)
Theorem no_current_span_breaks_instrumented_calls
    (cur : CursorWrapper.t) (con : ConnectionWrapper.t)
    (sql proc_name : string) (params : option pyval) (seq : pyval)
    (tr : list event) (st : list (gmap string pyval)) :
  let w := World None tr st in
  let failure {A} : outcome A * world :=
    (Raise (Exn "AttributeError" "__exit__"), w) in
  db_span sql (CursorWrapper._module_name cur)
    (match params with Some p => p | None => PyNone end)
    (CursorWrapper._connect_params cur) (CursorWrapper._cursor_params cur) w
  = (Return empty_ctx_mgr, w) /\
  CursorWrapper.execute cur sql params w = failure /\
  CursorWrapper.executemany cur sql seq w = failure /\
  CursorWrapper.callproc cur proc_name params w = failure /\
  ConnectionWrapper.commit con w = failure /\
  ConnectionWrapper.rollback con w = failure.
Proof.
  cbv zeta. repeat split; try reflexivity; destruct params; reflexivity.
Qed.

Example no_current_span_execute :
  let w := World None [] [] in
  cursor_execute a_cursor [PyStr "SELECT 1"] = Return (PyInt 1) /\
  CursorWrapper.execute a_cursor_wrapper "SELECT 1" None w
  = (Raise (Exn "AttributeError" "__exit__"), w) /\
  driver_calls (trace (CursorWrapper.execute a_cursor_wrapper "SELECT 1" None w).2) = [].
Proof. repeat split. Qed.

(** C2, refuted as stated: with a current span, [execute(sql, [])] starts
    the very span that [execute(sql)] starts; it has no [sql.params] tag, so
    the tag is not the string form of [[]]. *)
Lemma execute_empty_params_counterexample :
  exists sp,
    spans_started
      (trace (CursorWrapper.execute a_cursor_wrapper "SELECT 1" (Some (PyList []))
                (World (Some root) [] [])).2) = [sp] /\
    spans_started
      (trace (CursorWrapper.execute a_cursor_wrapper "SELECT 1" None
                (World (Some root) [] [])).2) = [sp] /\
    tags sp !! "sql.params" = None /\
    tags sp !! "sql.params" <> Some (py_str (PyList [])).
Proof.
  exists (Span "MySQLdb:SELECT" {["sql" := "SELECT 1"]}).
  repeat split; try (vm_compute; reflexivity).
  vm_compute. discriminate.
Qed.

(** C2, amended: with a current span, [execute] starts one span; it has no
    [sql.params] tag when no params argument is given, and also when the
    argument given is false in Python's sense (as [[]] is); it has the tag,
    holding the string form of the argument, exactly when the argument is
    given and true. *)
Theorem execute_params_tag
    (self : CursorWrapper.t) (sql : string) (params : option pyval)
    (parent : span) (tr : list event) (st : list (gmap string pyval)) :
  exists sp,
    spans_started
      (trace (CursorWrapper.execute self sql params (World (Some parent) tr st)).2)
    = spans_started tr ++ [sp] /\
    tags sp !! "sql.params"
    = match params with
      | None => None
      | Some p => if py_truthy p then Some (py_str p) else None
      end.
Proof.
  unfold CursorWrapper.execute.
  destruct (db_span_starts sql (CursorWrapper._module_name self)
              (match params with Some p => p | None => PyNone end)
              (CursorWrapper._connect_params self) (CursorWrapper._cursor_params self)
              parent tr st) as (sp & Hrun & _ & _ & Hparams & _).
  exists sp. split.
  - destruct params; rewrite (traced_call _ _ _ _ _ _ _ _ _ _ _ _ Hrun); run;
      unfold spans_started; rewrite !omap_app; cbn; rewrite app_nil_r; reflexivity.
  - destruct params; exact Hparams.
Qed.

(** C3, refuted as stated: with no positional argument and a password as the
    only keyword argument, nothing is recorded although [kwargs] is not
    empty. *)
Lemma connect_params_counterexample :
  let kw : gmap string pyval := {["password" := PyStr "s3cret"]} in
  kw <> ∅ /\
  exists proxy w',
    ConnectionFactory.__call__ a_factory [] kw (World (Some root) [] [])
    = (Return proxy, w') /\
    ConnectionWrapper._connect_params proxy = None.
Proof.
  cbv zeta. split.
  - apply insert_non_empty.
  - do 2 eexists. split; [vm_compute; reflexivity | reflexivity].
Qed.

(** C3, amended: when the connect function returns a connection, the wrapper
    records [None] exactly when the positional arguments and the redacted
    keyword arguments are both empty, and otherwise the pair of the positional
    arguments and of a dictionary holding the keyword arguments without
    [password] and [passwd]. *)
Theorem connect_params_recorded
    (self : ConnectionFactory.t) (args : list pyval) (kw : gmap string pyval)
    (cs : option span) (tr : list event) (st : list (gmap string pyval))
    (conn : connection)
    (Hok : connect_call (ConnectionFactory._connect_func self) args kw = Return conn) :
  let redacted := delete "password" (delete "passwd" kw) in
  exists proxy w',
    ConnectionFactory.__call__ self args kw (World cs tr st) = (Return proxy, w') /\
    ConnectionWrapper._connection proxy = conn /\
    match ConnectionWrapper._connect_params proxy with
    | None => args = [] /\ redacted = ∅
    | Some (a, k) =>
        a = args /\ store w' !! k = Some redacted /\ ~ (args = [] /\ redacted = ∅)
    end.
Proof.
  cbv zeta.
  destruct (factory_call_runs self args kw cs tr st)
    as (safe & st' & Hrun & _ & Hsafe & _).
  rewrite Hok in Hrun. do 2 eexists. split; [exact Hrun|]. split; [reflexivity|].
  cbn [ConnectionWrapper._connect_params store].
  destruct (py_truthy (PyTuple args)
            || negb (bool_decide (delete "password" (delete "passwd" kw) = ∅)))
    eqn:E.
  - repeat split; [exact Hsafe|]. intros H. apply recorded_test in H. congruence.
  - apply recorded_test, E.
Qed.

Lemma connect_params_recorded_witness :
  let args := [PyStr "db.example"] in
  let kw : gmap string pyval := <["passwd" := PyStr "s3cret"]> {["user" := PyStr "app"]} in
  connect_call (ConnectionFactory._connect_func a_factory) args kw = Return a_connection /\
  exists proxy w',
    ConnectionFactory.__call__ a_factory args kw (World (Some root) [] [])
    = (Return proxy, w') /\
    ConnectionWrapper._connection proxy = a_connection /\
    match ConnectionWrapper._connect_params proxy with
    | None => args = [] /\ delete "password" (delete "passwd" kw) = ∅
    | Some (a, k) =>
        a = args /\
        store w' !! k = Some (delete "password" (delete "passwd" kw)) /\
        ~ (args = [] /\ delete "password" (delete "passwd" kw) = ∅)
    end.
Proof.
  cbv zeta. split; [reflexivity|].
  apply (connect_params_recorded a_factory [PyStr "db.example"]
           (<["passwd" := PyStr "s3cret"]> {["user" := PyStr "app"]})
           (Some root) [] [] a_connection).
  reflexivity.
Defined.

(** C4: when the keyword arguments hold [password] or [passwd], the connect
    function is still called, once, with the positional arguments and the
    keyword arguments as the caller gave them; the dictionary object it was
    given is left untouched; the dictionary recorded in [connect_params] is
    another object, which holds neither key; and the [sql.conn] tag that
    [db_span] later writes from it is the string form of the positional
    arguments and of that dictionary, among whose items neither key occurs. *)
Theorem credentials_redacted
    (self : ConnectionFactory.t) (args : list pyval) (kw : gmap string pyval)
    (cs : option span) (tr : list event) (st : list (gmap string pyval))
    (Hcred : is_Some (kw !! "password") \/ is_Some (kw !! "passwd")) :
  let r := connect_call (ConnectionFactory._connect_func self) args kw in
  let w' := (ConnectionFactory.__call__ self args kw (World cs tr st)).2 in
  driver_calls (trace w') = driver_calls tr ++ [(m_connect, args, kw)] /\
  store w' !! length st = Some kw /\
  exists safe d,
    safe <> length st /\
    store w' !! safe = Some d /\
    d !! "password" = None /\ d !! "passwd" = None /\
    (forall k, k <> "password" -> k <> "passwd" -> d !! k = kw !! k) /\
    (forall v, ((PyStr "password", v) ∉ dict_items d) /\
               ((PyStr "passwd", v) ∉ dict_items d)) /\
    (forall conn, r = Return conn ->
       exists proxy,
         (ConnectionFactory.__call__ self args kw (World cs tr st)).1 = Return proxy /\
         (ConnectionWrapper._connect_params proxy = None \/
          ConnectionWrapper._connect_params proxy = Some (args, safe))) /\
    (forall sql m p cup parent tr',
       exists sp,
         db_span sql m p (Some (args, safe)) cup (World (Some parent) tr' (store w'))
         = (Return (span_scope sp),
            World (Some parent) (tr' ++ [SpanStarted (Some parent) sp]) (store w')) /\
         tags sp !! "sql.conn"
         = Some (py_str (PyTuple [PyTuple args; PyDict (dict_items d)]))).
Proof.
  cbv zeta.
  destruct (factory_call_runs self args kw cs tr st)
    as (safe & st' & Hrun & Hlive & Hsafe & Haddr).
  rewrite Hrun. cbn [fst snd trace store].
  assert (Hp : delete "password" (delete "passwd" kw) !! "password" = None)
    by apply lookup_delete_eq.
  assert (Hq : delete "password" (delete "passwd" kw) !! "passwd" = None)
    by (rewrite lookup_delete_ne by discriminate; apply lookup_delete_eq).
  split; [|split; [exact Hlive|]].
  - unfold driver_calls. rewrite omap_app. cbn. reflexivity.
  - exists safe, (delete "password" (delete "passwd" kw)).
    split; [|split; [exact Hsafe | split; [exact Hp | split; [exact Hq|]]]].
    + assert (bool_decide (is_Some (kw !! "passwd"))
              || bool_decide (is_Some (kw !! "password")) = true) as E.
      { destruct Hcred as [H|H]; apply (bool_decide_eq_true_2 _) in H;
          rewrite H; [apply orb_true_r | reflexivity]. }
      rewrite E in Haddr. lia.
    + split; [|split; [|split]].
      * intros k H1 H2. rewrite !lookup_delete_ne by congruence. reflexivity.
      * intros v. split; apply dict_items_absent; assumption.
      * intros conn Hconn. rewrite Hconn. eexists. split; [reflexivity|].
        cbn [ConnectionWrapper._connect_params].
        destruct (py_truthy (PyTuple args) || _); auto.
      * intros sql m p cup parent tr'.
        destruct (db_span_starts sql m p (Some (args, safe)) cup parent tr' st')
          as (sp & Hdb & _ & _ & _ & Hconn & _).
        exists sp. split; [exact Hdb|].
        rewrite Hconn. unfold rendered. cbn [fmap option_fmap option_map fst snd].
        rewrite Hsafe. reflexivity.
Qed.

Lemma credentials_redacted_witness :
  let args := [PyStr "db.example"] in
  let kw : gmap string pyval :=
    <["password" := PyStr "s3cret"]> {["user" := PyStr "app"]} in
  let w' := (ConnectionFactory.__call__ a_factory args kw (World (Some root) [] [])).2 in
  (is_Some (kw !! "password") \/ is_Some (kw !! "passwd")) /\
  driver_calls (trace w') = driver_calls [] ++ [(m_connect, args, kw)] /\
  store w' !! 0 = Some kw /\
  store w' !! 1 = Some ({["user" := PyStr "app"]} : gmap string pyval).
Proof.
  cbv zeta.
  assert (Hcred : is_Some ((<["password" := PyStr "s3cret"]> {["user" := PyStr "app"]}
                            : gmap string pyval) !! "password")
                  \/ is_Some ((<["password" := PyStr "s3cret"]> {["user" := PyStr "app"]}
                               : gmap string pyval) !! "passwd")).
  { left. vm_compute. eauto. }
  split; [exact Hcred|].
  destruct (credentials_redacted a_factory [PyStr "db.example"]
              (<["password" := PyStr "s3cret"]> {["user" := PyStr "app"]})
              (Some root) [] [] Hcred) as (Hcalls & Hlive & _).
  split; [exact Hcalls|]. split; [exact Hlive|].
  vm_compute. reflexivity.
Defined.

(** C5: with a current span, [db_span] starts one span.  For the statements
    [commit] and [rollback] its operation is the keyword itself and it has no
    [sql] tag; for any other statement its [sql] tag is the trimmed
    statement. *)
Theorem db_span_sql_tag
    (sql m : string) (p : pyval) (cp cup : option call_args)
    (parent : span) (tr : list event) (st : list (gmap string pyval)) :
  exists sp,
    db_span sql m p cp cup (World (Some parent) tr st)
    = (Return (span_scope sp),
       World (Some parent) (tr ++ [SpanStarted (Some parent) sp]) st) /\
    (((sql = "commit" \/ sql = "rollback") /\
      operation_name sp = m +:+ ":" +:+ sql /\ tags sp !! "sql" = None)
     \/
     ((sql <> "commit" /\ sql <> "rollback") /\
      tags sp !! "sql" = Some (strip sql))).
Proof.
  destruct (db_span_starts sql m p cp cup parent tr st)
    as (sp & Hrun & Hop & Hsql & _).
  exists sp. split; [exact Hrun|]. unfold _COMMIT, _ROLLBACK in *.
  destruct (decide (sql = "commit")) as [Hc|Hc];
    [|destruct (decide (sql = "rollback")) as [Hr|Hr]].
  - left. rewrite bool_decide_eq_true_2 in Hop, Hsql by exact Hc. auto.
  - left. rewrite (bool_decide_eq_true_2 (sql = "rollback")), orb_true_r in Hop, Hsql
      by exact Hr. auto.
  - right. rewrite !bool_decide_eq_false_2 in Hsql by assumption. auto.
Qed.

Example db_span_commit_example :
  db_span "commit" "MySQLdb" PyNone None None (World (Some root) [] [])
  = (Return (span_scope (Span "MySQLdb:commit" ∅)),
     World (Some root) [SpanStarted (Some root) (Span "MySQLdb:commit" ∅)] []).
Proof. reflexivity. Qed.

Example db_span_select_example :
  spans_started
    (trace (db_span "  SELECT 1 " "MySQLdb" PyNone None None
              (World (Some root) [] [])).2)
  = [Span "MySQLdb:SELECT" {["sql" := "SELECT 1"]}].
Proof. vm_compute. reflexivity. Qed.

(** C6: for a statement other than [commit] and [rollback], [db_span] never
    raises, and with a current span the span it starts is named
    [module:token], where the token is empty when the trimmed statement has
    no blank, and otherwise is the part of the trimmed statement before its
    first blank. *)
Theorem db_span_operation_token
    (sql m : string) (p : pyval) (cp cup : option call_args)
    (parent : span) (tr : list event) (st : list (gmap string pyval))
    (Hcommit : sql <> "commit") (Hrollback : sql <> "rollback") :
  (forall w, exists cm w', db_span sql m p cp cup w = (Return cm, w')) /\
  exists sp token,
    db_span sql m p cp cup (World (Some parent) tr st)
    = (Return (span_scope sp),
       World (Some parent) (tr ++ [SpanStarted (Some parent) sp]) st) /\
    operation_name sp = m +:+ ":" +:+ token /\
    ((str_contains " " (strip sql) = false /\ token = "")
     \/
     (exists rest,
        strip sql = token +:+ String " " rest /\
        str_contains " " token = false)).
Proof.
  split.
  - intros [[parent'|] tr' st'].
    + destruct (db_span_starts sql m p cp cup parent' tr' st') as (sp & Hrun & _).
      eauto.
    + rewrite db_span_without_span. eauto.
  - destruct (db_span_starts sql m p cp cup parent tr st)
      as (sp & Hrun & Hop & _).
    unfold _COMMIT, _ROLLBACK in Hop.
    rewrite !bool_decide_eq_false_2 in Hop by assumption. cbn [orb] in Hop.
    destruct (Z.eqb_spec (find " " (strip sql)) (-1)) as [E|E].
    + exists sp, "". repeat split; [exact Hrun | exact Hop |].
      left. split; [apply find_absent, E | reflexivity].
    + exists sp, (slice0 (strip sql) (find " " (strip sql))).
      repeat split; [exact Hrun | exact Hop |].
      right. apply find_present, E.
Qed.

Lemma db_span_operation_token_witness :
  "SELECT 1" <> "commit" /\ "SELECT 1" <> "rollback" /\
  (forall w, exists cm w',
     db_span "SELECT 1" "MySQLdb" PyNone None None w = (Return cm, w')) /\
  exists sp token,
    db_span "SELECT 1" "MySQLdb" PyNone None None (World (Some root) [] [])
    = (Return (span_scope sp),
       World (Some root) ([] ++ [SpanStarted (Some root) sp]) []) /\
    operation_name sp = "MySQLdb" +:+ ":" +:+ token /\
    ((str_contains " " (strip "SELECT 1") = false /\ token = "")
     \/
     (exists rest,
        strip "SELECT 1" = token +:+ String " " rest /\
        str_contains " " token = false)).
Proof.
  split; [discriminate|]. split; [discriminate|].
  apply (db_span_operation_token "SELECT 1" "MySQLdb" PyNone None None root [] []);
    discriminate.
Defined.

Example db_span_token_examples :
  operation_name <$> spans_started
    (trace (db_span " INSERT INTO t VALUES (1)" "m" PyNone None None
              (World (Some root) [] [])).2) = ["m:INSERT"] /\
  operation_name <$> spans_started
    (trace (db_span "VACUUM" "m" PyNone None None (World (Some root) [] [])).2)
  = ["m:"].
Proof. split; vm_compute; reflexivity. Qed.

(** C7, as the code has it.  With a current span, [__exit__] of the
    context-manager wrapper starts a span named [module:commit] when [exc] is
    [None] and [module:rollback] otherwise, calls the real [__exit__] once
    with the same three arguments, finishes the span, and ends exactly as the
    real call ended: same return value, or same exception.  Without a current
    span it raises [AttributeError] and the real [__exit__] is not called. *)
Theorem exit_outcome
    (self : ConnectionWrapper.t) (exc value tb : pyval)
    (parent : span) (tr : list event) (st : list (gmap string pyval)) :
  let r := connection_exit (ConnectionWrapper._connection self) exc value tb in
  (exists sp,
     ContextManagerConnectionWrapper.__exit__ self exc value tb
       (World (Some parent) tr st)
     = (r, World (Some parent)
             (tr ++ [SpanStarted (Some parent) sp;
                     DriverCalled m_exit [exc; value; tb] ∅;
                     SpanFinished sp (raised r)]) st) /\
     operation_name sp
     = ConnectionWrapper._module_name self +:+ ":" +:+
       match exc with PyNone => "commit" | _ => "rollback" end) /\
  ContextManagerConnectionWrapper.__exit__ self exc value tb (World None tr st)
  = (Raise (Exn "AttributeError" "__exit__"), World None tr st).
Proof.
  cbv zeta. unfold ContextManagerConnectionWrapper.__exit__.
  set (kw := match exc with PyNone => _COMMIT | _ => _ROLLBACK end).
  split; [|reflexivity].
  destruct (db_span_starts kw (ConnectionWrapper._module_name self)
              PyNone None None parent tr st) as (sp & Hrun & Hop & _).
  exists sp. split.
  - rewrite (traced_call _ _ _ _ _ _ _ _ _ _ _ _ Hrun). run.
    rewrite <- app_assoc. reflexivity.
  - rewrite Hop. subst kw. destruct exc; reflexivity.
Qed.

Example exit_without_span_example :
  connection_exit a_connection PyNone PyNone PyNone = Return (PyBool true) /\
  ContextManagerConnectionWrapper.__exit__ a_connection_wrapper PyNone PyNone PyNone
    (World None [] [])
  = (Raise (Exn "AttributeError" "__exit__"), World None [] []).
Proof. split; reflexivity. Qed.

(** C8, refuted as stated: on success the connect hook does not return the
    connection the driver returned; it returns a wrapper holding it. *)
Lemma connect_returns_wrapper_counterexample :
  connect_call a_connect [] ∅ = Return a_connection /\
  exists proxy w',
    ConnectionFactory.__call__ a_factory [] ∅ (World (Some root) [] [])
    = (Return proxy, w') /\
    ConnectionWrapper._connection proxy = a_connection /\
    wrapper proxy <> driver_connection a_connection.
Proof.
  split; [reflexivity|]. do 2 eexists.
  split; [vm_compute; reflexivity|]. split; [reflexivity | discriminate].
Qed.

(** C8, amended: with a current span, [execute], [executemany], [callproc],
    [commit] and [rollback] start a span, make the driver call, finish the
    span marked failed exactly when the call raised, and end exactly as the
    call ended: its return value unchanged, or its exception unchanged.  The
    connect hook does the same inside its function span when the connect
    function raises; when it returns a connection the hook returns a wrapper
    of the configured class around that connection. *)
Theorem driver_outcome_passes_through
    (cur : CursorWrapper.t) (con : ConnectionWrapper.t) (fac : ConnectionFactory.t)
    (sql proc_name : string) (params : option pyval) (seq : pyval)
    (args : list pyval) (kw : gmap string pyval)
    (parent : span) (tr : list event) (st : list (gmap string pyval)) :
  let w := World (Some parent) tr st in
  let supplied := match params with Some p => [p] | None => [] end in
  traced parent tr st (CursorWrapper.execute cur sql params w) m_execute (PyStr sql :: supplied)
    (cursor_execute (CursorWrapper._cursor cur) (PyStr sql :: supplied)) /\
  traced parent tr st (CursorWrapper.executemany cur sql seq w) m_executemany [PyStr sql; seq]
    (cursor_executemany (CursorWrapper._cursor cur) [PyStr sql; seq]) /\
  traced parent tr st (CursorWrapper.callproc cur proc_name params w) m_callproc
    (PyStr proc_name :: supplied)
    (cursor_callproc (CursorWrapper._cursor cur) (PyStr proc_name :: supplied)) /\
  traced parent tr st (ConnectionWrapper.commit con w) m_commit []
    (connection_commit (ConnectionWrapper._connection con)) /\
  traced parent tr st (ConnectionWrapper.rollback con w) m_rollback []
    (connection_rollback (ConnectionWrapper._connection con)) /\
  let r := connect_call (ConnectionFactory._connect_func fac) args kw in
  let run := ConnectionFactory.__call__ fac args kw w in
  (exists sp,
     trace run.2 = tr ++ [SpanStarted (Some parent) sp; DriverCalled m_connect args kw;
                          SpanFinished sp (raised r)]) /\
  match r with
  | Return conn =>
      exists proxy,
        run.1 = Return proxy /\
        ConnectionWrapper._connection proxy = conn /\
        ConnectionWrapper.class proxy = ConnectionFactory._wrapper_ctor fac
  | Raise e => run.1 = Raise e
  end.
Proof.
  cbv zeta.
  unfold traced, CursorWrapper.execute, CursorWrapper.executemany,
    CursorWrapper.callproc, ConnectionWrapper.commit, ConnectionWrapper.rollback.
  repeat match goal with
  | |- _ /\ _ => split
  | |- exists sp, (cm ← db_span ?s ?m ?p ?cp ?cup; _) _ = _ =>
      let sp := fresh "sp" in
      let H := fresh "H" in
      destruct (db_span_starts s m p cp cup parent tr st) as (sp & H & _);
      exists sp; destruct params;
      rewrite (traced_call _ _ _ _ _ _ _ _ _ _ _ _ H); run;
      rewrite <- app_assoc; reflexivity
  end.
  - destruct (factory_call_runs fac args kw (Some parent) tr st)
      as (safe & st' & Hrun & _).
    rewrite Hrun. eexists. reflexivity.
  - destruct (factory_call_runs fac args kw (Some parent) tr st)
      as (safe & st' & Hrun & _).
    rewrite Hrun.
    destruct (connect_call (ConnectionFactory._connect_func fac) args kw);
      [eexists; repeat split | reflexivity].
Qed.

Example executemany_failure_example :
  CursorWrapper.executemany a_cursor_wrapper "INSERT INTO t VALUES (%s)"
    (PyList [PyInt 1]) (World (Some root) [] [])
  = (Raise (Exn "ProgrammingError" "syntax"),
     World (Some root)
       [SpanStarted (Some root)
          (Span "MySQLdb:INSERT"
             (<["sql.params" := "[1]"]> {["sql" := "INSERT INTO t VALUES (%s)"]}));
        DriverCalled m_executemany
          [PyStr "INSERT INTO t VALUES (%s)"; PyList [PyInt 1]] ∅;
        SpanFinished
          (Span "MySQLdb:INSERT"
             (<["sql.params" := "[1]"]> {["sql" := "INSERT INTO t VALUES (%s)"]}))
          true]
       []).
Proof. vm_compute. reflexivity. Qed.

(** C9, as the code has it.  [execute] and [callproc] hand the real cursor
    method the statement (or procedure name) alone when the caller gave no
    params argument, and followed by the params value, whatever it is, when
    the caller gave one.  With a current span that call is the only driver
    call made and its outcome is the outcome of the wrapper; without a current
    span the real method is not called at all. *)
Theorem execute_callproc_arity
    (self : CursorWrapper.t) (sql proc_name : string) (params : option pyval)
    (parent : span) (tr : list event) (st : list (gmap string pyval)) :
  let supplied := match params with Some p => [p] | None => [] end in
  let w := World (Some parent) tr st in
  length (PyStr sql :: supplied) = match params with Some _ => 2 | None => 1 end /\
  (CursorWrapper.execute self sql params w).1
  = cursor_execute (CursorWrapper._cursor self) (PyStr sql :: supplied) /\
  driver_calls (trace (CursorWrapper.execute self sql params w).2)
  = driver_calls tr ++ [(m_execute, PyStr sql :: supplied, ∅)] /\
  (CursorWrapper.callproc self proc_name params w).1
  = cursor_callproc (CursorWrapper._cursor self) (PyStr proc_name :: supplied) /\
  driver_calls (trace (CursorWrapper.callproc self proc_name params w).2)
  = driver_calls tr ++ [(m_callproc, PyStr proc_name :: supplied, ∅)] /\
  driver_calls (trace (CursorWrapper.execute self sql params (World None tr st)).2)
  = driver_calls tr /\
  driver_calls (trace (CursorWrapper.callproc self proc_name params (World None tr st)).2)
  = driver_calls tr.
Proof.
  cbv zeta. unfold CursorWrapper.execute, CursorWrapper.callproc.
  destruct (db_span_starts sql (CursorWrapper._module_name self)
              (match params with Some p => p | None => PyNone end)
              (CursorWrapper._connect_params self) (CursorWrapper._cursor_params self)
              parent tr st) as (sp & Hrun & _).
  destruct (db_span_starts ("sproc:" +:+ proc_name) (CursorWrapper._module_name self)
              (match params with Some p => p | None => PyNone end)
              (CursorWrapper._connect_params self) (CursorWrapper._cursor_params self)
              parent tr st) as (sp' & Hrun' & _).
  destruct params;
    rewrite ?(traced_call _ _ _ _ _ _ _ _ _ _ _ _ Hrun),
            ?(traced_call _ _ _ _ _ _ _ _ _ _ _ _ Hrun');
    run; unfold driver_calls; rewrite ?omap_app; cbn; rewrite ?app_nil_r;
    repeat split; reflexivity.
Qed.

(** C10, refuted as stated: a procedure name with no blank may still end in
    white space (here a TAB), which the trimming removes from the [sql]
    tag. *)
Lemma callproc_sql_tag_counterexample :
  let proc_name := String "p" (String "009" "") in
  str_contains " " proc_name = false /\
  exists sp,
    spans_started
      (trace (CursorWrapper.callproc a_cursor_wrapper proc_name None
                (World (Some root) [] [])).2) = [sp] /\
    tags sp !! "sql" = Some "sproc:p" /\
    tags sp !! "sql" <> Some ("sproc:" +:+ proc_name).
Proof.
  cbv zeta. split; [reflexivity|].
  exists (Span "MySQLdb:" {["sql" := "sproc:p"]}).
  repeat split; try (vm_compute; reflexivity).
  vm_compute. discriminate.
Qed.

(** C10, amended: for a procedure name with no blank, and with a current
    span, [callproc] starts one span; its operation name is [module:], with an
    empty token, and its [sql] tag is [sproc:] followed by the name without its
    trailing white space (the name itself when it has none). *)
Theorem callproc_operation_name
    (self : CursorWrapper.t) (proc_name : string) (params : option pyval)
    (parent : span) (tr : list event) (st : list (gmap string pyval))
    (Hblank : str_contains " " proc_name = false) :
  exists sp,
    spans_started
      (trace (CursorWrapper.callproc self proc_name params
                (World (Some parent) tr st)).2)
    = spans_started tr ++ [sp] /\
    operation_name sp = CursorWrapper._module_name self +:+ ":" /\
    tags sp !! "sql" = Some ("sproc:" +:+ rstrip proc_name) /\
    (rstrip proc_name = proc_name ->
     tags sp !! "sql" = Some ("sproc:" +:+ proc_name)).
Proof.
  unfold CursorWrapper.callproc.
  destruct (db_span_starts ("sproc:" +:+ proc_name) (CursorWrapper._module_name self)
              (match params with Some p => p | None => PyNone end)
              (CursorWrapper._connect_params self) (CursorWrapper._cursor_params self)
              parent tr st) as (sp & Hrun & Hop & Hsql & _).
  assert (Hstrip : strip ("sproc:" +:+ proc_name) = "sproc:" +:+ rstrip proc_name).
  { unfold strip. change (lstrip ("sproc:" +:+ proc_name)) with ("sproc:" +:+ proc_name).
    apply rstrip_app; [reflexivity | discriminate]. }
  assert (Hfind : find " " (strip ("sproc:" +:+ proc_name)) = (-1)%Z).
  { apply find_absent, contains_strip. rewrite contains_app, Hblank. reflexivity. }
  rewrite Hfind in Hop. rewrite Hstrip in Hsql.
  change (bool_decide ("sproc:" +:+ proc_name = _COMMIT)
          || bool_decide ("sproc:" +:+ proc_name = _ROLLBACK)) with false in Hop, Hsql.
  exists sp. repeat split.
  - destruct params; rewrite (traced_call _ _ _ _ _ _ _ _ _ _ _ _ Hrun); run;
      unfold spans_started; rewrite !omap_app; cbn; rewrite app_nil_r; reflexivity.
  - exact Hop.
  - exact Hsql.
  - intros E. rewrite E in Hsql. exact Hsql.
Qed.

Lemma callproc_operation_name_witness :
  str_contains " " "get_user" = false /\
  exists sp,
    spans_started
      (trace (CursorWrapper.callproc a_cursor_wrapper "get_user" (Some (PyList [PyInt 7]))
                (World (Some root) [] [])).2)
    = spans_started [] ++ [sp] /\
    operation_name sp = CursorWrapper._module_name a_cursor_wrapper +:+ ":" /\
    tags sp !! "sql" = Some ("sproc:" +:+ rstrip "get_user") /\
    (rstrip "get_user" = "get_user" ->
     tags sp !! "sql" = Some ("sproc:" +:+ "get_user")).
Proof.
  split; [reflexivity|].
  apply (callproc_operation_name a_cursor_wrapper "get_user"
           (Some (PyList [PyInt 7])) root [] []).
  reflexivity.
Defined.

(** ** Further properties of the hooks *)

(** X1.  [cursor] starts no span and needs no current span: in every world
    it calls the real [cursor] once with the caller's positional and keyword
    arguments and logs nothing else.  When the real call raises, the exception
    reaches the caller; when it returns, the wrapper built around its result
    carries the connection's module name and connect params, and its cursor
    params are [None] exactly when no argument at all was given, and
    otherwise the pair of the arguments and of the keyword dictionary. *)
Theorem cursor_not_traced
    (self : ConnectionWrapper.t) (args : list pyval) (kw : gmap string pyval)
    (cs : option span) (tr : list event) (st : list (gmap string pyval)) :
  let r := connection_cursor (ConnectionWrapper._connection self) args kw in
  let run := ConnectionWrapper.cursor self args kw (World cs tr st) in
  trace run.2 = tr ++ [DriverCalled m_cursor args kw] /\
  spans_started (trace run.2) = spans_started tr /\
  store run.2 = st ++ [kw] /\
  match r with
  | Raise e => run.1 = Raise e
  | Return c =>
      exists cur,
        run.1 = Return cur /\
        CursorWrapper._cursor cur = c /\
        CursorWrapper._module_name cur = ConnectionWrapper._module_name self /\
        CursorWrapper._connect_params cur = ConnectionWrapper._connect_params self /\
        (args = [] /\ kw = ∅ /\ CursorWrapper._cursor_params cur = None
         \/
         ~ (args = [] /\ kw = ∅) /\
         CursorWrapper._cursor_params cur = Some (args, length st))
  end.
Proof.
  cbv zeta. unfold ConnectionWrapper.cursor, mbind, M_bind.
  rewrite new_dict_run. rewrite (dict_get_run _ _ _ _ kw) by lookup.
  unfold call_driver. cbv beta iota delta [current_span trace store].
  destruct (connection_cursor (ConnectionWrapper._connection self) args kw) as [c|e].
  - rewrite (dict_truthy_run _ _ _ _ kw) by lookup.
    cbv beta iota delta [mret M_ret fst snd trace store].
    repeat split.
    + unfold spans_started. rewrite omap_app. cbn. apply app_nil_r.
    + eexists. split; [reflexivity|].
      cbn [CursorWrapper._cursor CursorWrapper._module_name
           CursorWrapper._connect_params CursorWrapper._cursor_params].
      repeat split.
      destruct (py_truthy (PyTuple args) || negb (bool_decide (kw = ∅))) eqn:E.
      * right. split; [|reflexivity]. intros H. apply recorded_test in H. congruence.
      * left. apply recorded_test in E as [-> ->]. auto.
  - cbn. repeat split.
    unfold spans_started. rewrite omap_app. cbn. apply app_nil_r.
Qed.


(** X3.  [commit] and [rollback] spans carry no tag at all: with a current
    span, the span started is named [module:commit] (or [module:rollback]) and
    its tag map is empty, also when the connection was opened with connect
    params; the real call is made once with no argument and its outcome is the
    outcome of the hook. *)
Theorem commit_rollback_untagged
    (self : ConnectionWrapper.t)
    (parent : span) (tr : list event) (st : list (gmap string pyval)) :
  let m := ConnectionWrapper._module_name self in
  let c := ConnectionWrapper._connection self in
  ConnectionWrapper.commit self (World (Some parent) tr st)
  = (connection_commit c,
     World (Some parent)
       (tr ++ [SpanStarted (Some parent) (Span (m +:+ ":commit") ∅);
               DriverCalled m_commit [] ∅;
               SpanFinished (Span (m +:+ ":commit") ∅)
                 (raised (connection_commit c))]) st) /\
  ConnectionWrapper.rollback self (World (Some parent) tr st)
  = (connection_rollback c,
     World (Some parent)
       (tr ++ [SpanStarted (Some parent) (Span (m +:+ ":rollback") ∅);
               DriverCalled m_rollback [] ∅;
               SpanFinished (Span (m +:+ ":rollback") ∅)
                 (raised (connection_rollback c))]) st).
Proof.
  cbv zeta. unfold ConnectionWrapper.commit, ConnectionWrapper.rollback.
  split.
  - rewrite (traced_call _ _ _ _ _ _ _ _ _ _
               (Span (ConnectionWrapper._module_name self +:+ ":commit") ∅)
               (World (Some parent) (tr ++ [SpanStarted (Some parent)
                  (Span (ConnectionWrapper._module_name self +:+ ":commit") ∅)]) st))
      by reflexivity.
    run. rewrite <- app_assoc. reflexivity.
  - rewrite (traced_call _ _ _ _ _ _ _ _ _ _
               (Span (ConnectionWrapper._module_name self +:+ ":rollback") ∅)
               (World (Some parent) (tr ++ [SpanStarted (Some parent)
                  (Span (ConnectionWrapper._module_name self +:+ ":rollback") ∅)]) st))
      by reflexivity.
    run. rewrite <- app_assoc. reflexivity.
Qed.

(** X4.  [executemany] always hands the real method the statement and the
    sequence, also when the sequence is empty, and ends as the real call
    ends; but the span it starts under a current span has the [sql.params]
    tag, holding the string form of the sequence, only when the sequence is
    true in Python's sense: an empty sequence is not tagged. *)
Theorem executemany_params_tag
    (self : CursorWrapper.t) (sql : string) (seq : pyval)
    (parent : span) (tr : list event) (st : list (gmap string pyval)) :
  let r := cursor_executemany (CursorWrapper._cursor self) [PyStr sql; seq] in
  exists sp,
    CursorWrapper.executemany self sql seq (World (Some parent) tr st)
    = (r, World (Some parent)
            (tr ++ [SpanStarted (Some parent) sp;
                    DriverCalled m_executemany [PyStr sql; seq] ∅;
                    SpanFinished sp (raised r)]) st) /\
    tags sp !! "sql.params" = (if py_truthy seq then Some (py_str seq) else None).
Proof.
  cbv zeta. unfold CursorWrapper.executemany.
  destruct (db_span_starts sql (CursorWrapper._module_name self) seq
              (CursorWrapper._connect_params self) (CursorWrapper._cursor_params self)
              parent tr st) as (sp & Hrun & _ & _ & Hparams & _).
  exists sp. split; [|exact Hparams].
  rewrite (traced_call _ _ _ _ _ _ _ _ _ _ _ _ Hrun). run.
  rewrite <- app_assoc. reflexivity.
Qed.

(** X5.  The tags of a span that [db_span] starts are among [sql],
    [sql.params], [sql.conn] and [sql.cursor], and each is present exactly
    under its own condition: [sql] unless the statement is [commit] or
    [rollback], [sql.params] when the parameters are true in Python's sense,
    [sql.conn] and [sql.cursor] when connect params and cursor params are not
    [None].  No other tag is ever written. *)
Theorem db_span_tag_names
    (sql m : string) (p : pyval) (cp cup : option call_args)
    (parent : span) (tr : list event) (st : list (gmap string pyval)) :
  exists sp,
    db_span sql m p cp cup (World (Some parent) tr st)
    = (Return (span_scope sp),
       World (Some parent) (tr ++ [SpanStarted (Some parent) sp]) st) /\
    dom (tags sp)
    = (if bool_decide (sql = "commit") || bool_decide (sql = "rollback")
       then ∅ else {["sql"]})
      ∪ (if py_truthy p then {["sql.params"]} else ∅)
      ∪ (match cp with Some _ => {["sql.conn"]} | None => ∅ end)
      ∪ (match cup with Some _ => {["sql.cursor"]} | None => ∅ end).
Proof.
  unfold db_span, _COMMIT, _ROLLBACK.
  destruct (bool_decide (sql = "commit") || bool_decide (sql = "rollback"));
    destruct (py_truthy p); destruct cp as [[a1 k1]|]; destruct cup as [[a2 k2]|];
    eexists; (split; [reflexivity|]); cbn [tags];
    rewrite ?dom_insert_L, ?dom_empty_L; set_solver.
Qed.

(** X6.  The test for [commit] and [rollback] is made on the statement as
    given, not on the trimmed one: a statement that is one of the two keywords
    with white space around it is handled as SQL text.  Its span is named
    [module:] with an empty token, and it carries the keyword as its [sql]
    tag. *)
Theorem padded_keyword_is_sql
    (sql keyword m : string) (p : pyval) (cp cup : option call_args)
    (parent : span) (tr : list event) (st : list (gmap string pyval))
    (Hkeyword : keyword = "commit" \/ keyword = "rollback")
    (Htrimmed : strip sql = keyword)
    (Hpadded : sql <> keyword) :
  exists sp,
    db_span sql m p cp cup (World (Some parent) tr st)
    = (Return (span_scope sp),
       World (Some parent) (tr ++ [SpanStarted (Some parent) sp]) st) /\
    operation_name sp = m +:+ ":" /\
    tags sp !! "sql" = Some keyword.
Proof.
  destruct (db_span_starts sql m p cp cup parent tr st)
    as (sp & Hrun & Hop & Hsql & _).
  exists sp. split; [exact Hrun|].
  assert (Hc : sql <> "commit").
  { intros ->. destruct Hkeyword as [->| ->]; [congruence | discriminate Htrimmed]. }
  assert (Hr : sql <> "rollback").
  { intros ->. destruct Hkeyword as [->| ->]; [discriminate Htrimmed | congruence]. }
  unfold _COMMIT, _ROLLBACK in *.
  rewrite !bool_decide_eq_false_2 in Hop, Hsql by assumption. cbn [orb] in Hop, Hsql.
  rewrite Htrimmed in Hop, Hsql.
  split; [|exact Hsql].
  rewrite Hop. destruct Hkeyword as [->| ->]; reflexivity.
Qed.

Lemma padded_keyword_is_sql_witness :
  let sql := String " " "commit" in
  ("commit" = "commit" \/ "commit" = "rollback") /\
  strip sql = "commit" /\
  sql <> "commit" /\
  exists sp,
    db_span sql "MySQLdb" PyNone None None (World (Some root) [] [])
    = (Return (span_scope sp),
       World (Some root) ([] ++ [SpanStarted (Some root) sp]) []) /\
    operation_name sp = "MySQLdb" +:+ ":" /\
    tags sp !! "sql" = Some "commit".
Proof.
  cbv zeta. split; [left; reflexivity|]. split; [reflexivity|].
  split; [discriminate|].
  apply (padded_keyword_is_sql (String " " "commit") "commit" "MySQLdb"
           PyNone None None root [] []);
    [left; reflexivity | reflexivity | discriminate].
Defined.

(** X7.  A cursor taken from the wrapper and then used: when the real
    [cursor] call returns and a current span exists, [execute] on the wrapped
    cursor runs the real [execute] of that very cursor, and the span it starts
    shows how the cursor was obtained: its [sql.cursor] tag is absent when
    [cursor] was called with no argument at all and is otherwise the string form
    of the pair of its arguments; its [sql.conn] tag is that of the connection.
    The trace holds the real [cursor] call, outside any span, followed by the
    span around the real [execute]. *)
Theorem cursor_then_execute
    (self : ConnectionWrapper.t) (args : list pyval) (kw : gmap string pyval)
    (sql : string) (params : option pyval) (c : cursor)
    (parent : span) (tr : list event) (st : list (gmap string pyval))
    (Hcursor : connection_cursor (ConnectionWrapper._connection self) args kw
               = Return c) :
  let supplied := match params with Some p => [p] | None => [] end in
  let r := cursor_execute c (PyStr sql :: supplied) in
  exists sp,
    (ConnectionWrapper.cursor self args kw
       ≫= fun cur => CursorWrapper.execute cur sql params)
      (World (Some parent) tr st)
    = (r, World (Some parent)
            (tr ++ [DriverCalled m_cursor args kw;
                    SpanStarted (Some parent) sp;
                    DriverCalled m_execute (PyStr sql :: supplied) ∅;
                    SpanFinished sp (raised r)]) (st ++ [kw])) /\
    tags sp !! "sql.cursor"
    = (if bool_decide (args = []) && bool_decide (kw = ∅) then None
       else Some (py_str (PyTuple [PyTuple args; PyDict (dict_items kw)]))) /\
    tags sp !! "sql.conn"
    = rendered (st ++ [kw]) <$> ConnectionWrapper._connect_params self.
Proof.
  cbv zeta.
  set (cup := if py_truthy (PyTuple args) || negb (bool_decide (kw = ∅))
              then Some (args, length st) else None).
  assert (Hcur :
    ConnectionWrapper.cursor self args kw (World (Some parent) tr st)
    = (Return (CursorWrapper.Build c (ConnectionWrapper._module_name self)
                 (ConnectionWrapper._connect_params self) cup),
       World (Some parent) (tr ++ [DriverCalled m_cursor args kw]) (st ++ [kw]))).
  { unfold ConnectionWrapper.cursor, mbind, M_bind.
    rewrite new_dict_run. rewrite (dict_get_run _ _ _ _ kw) by lookup.
    unfold call_driver. cbv beta iota delta [current_span trace store].
    rewrite Hcursor. rewrite (dict_truthy_run _ _ _ _ kw) by lookup.
    reflexivity. }
  unfold mbind at 1, M_bind at 1. rewrite Hcur.
  unfold CursorWrapper.execute.
  cbn [CursorWrapper._cursor CursorWrapper._module_name
       CursorWrapper._connect_params CursorWrapper._cursor_params].
  destruct (db_span_starts sql (ConnectionWrapper._module_name self)
              (match params with Some p => p | None => PyNone end)
              (ConnectionWrapper._connect_params self) cup
              parent (tr ++ [DriverCalled m_cursor args kw]) (st ++ [kw]))
    as (sp & Hrun & _ & _ & _ & Hconn & Hcup).
  exists sp. split; [|split; [|exact Hconn]].
  - destruct params; rewrite (traced_call _ _ _ _ _ _ _ _ _ _ _ _ Hrun); run;
      rewrite <- !app_assoc; reflexivity.
  - rewrite Hcup. subst cup. rewrite truthy_tuple.
    destruct (bool_decide (args = [])); destruct (bool_decide (kw = ∅));
      cbn [negb orb andb fmap option_fmap option_map]; try reflexivity;
      unfold rendered; cbn [fst snd]; rewrite store_new; reflexivity.
Qed.

Lemma cursor_then_execute_witness :
  let args := [PyStr "DictCursor"] in
  connection_cursor (ConnectionWrapper._connection a_connection_wrapper) args ∅
  = Return a_cursor /\
  exists sp,
    (ConnectionWrapper.cursor a_connection_wrapper args ∅
       ≫= fun cur => CursorWrapper.execute cur "SELECT 1" None)
      (World (Some root) [] [])
    = (cursor_execute a_cursor [PyStr "SELECT 1"],
       World (Some root)
         ([] ++ [DriverCalled m_cursor args ∅;
                 SpanStarted (Some root) sp;
                 DriverCalled m_execute [PyStr "SELECT 1"] ∅;
                 SpanFinished sp (raised (cursor_execute a_cursor [PyStr "SELECT 1"]))])
         ([] ++ [∅])) /\
    tags sp !! "sql.cursor" = Some "(('DictCursor',), {})".
Proof.
  cbv zeta. split; [reflexivity|].
  destruct (cursor_then_execute a_connection_wrapper [PyStr "DictCursor"] ∅
              "SELECT 1" None a_cursor root [] [] eq_refl)
    as (sp & Hrun & Hcursor & _).
  exists sp. split; [exact Hrun|]. rewrite Hcursor. vm_compute. reflexivity.
Defined.

(** Every hook built on [db_span] leaves the trace bracketed. *)
Lemma db_hook_bracketed {A : Type} sql m p cp cup meth args kw (r : outcome A) w :
  bracketed w ((cm ← db_span sql m p cp cup;
                with_ cm (call_driver meth args kw r)) w).2.
Proof.
  destruct w as [[parent|] tr st].
  - destruct (db_span_starts sql m p cp cup parent tr st) as (sp & Hrun & _).
    rewrite (traced_call _ _ _ _ _ _ _ _ _ _ _ _ Hrun). exists [sp].
    cbn [snd fst trace store current_span]. split; [cbn; lia|].
    unfold spans_started, spans_finished. rewrite !omap_app. cbn.
    rewrite !app_nil_r. split; reflexivity.
  - exists []. unfold mbind, M_bind. rewrite db_span_without_span.
    cbn [with_ raise snd trace length].
    split; [lia | split; symmetry; apply app_nil_r].
Qed.

(** X8.  No hook leaves a span open.  In every world, with or without a
    current span, and whatever the driver does (return or raise), each of
    [execute], [executemany], [callproc], [commit], [rollback], [__enter__],
    [__exit__] and the connect hook starts at most one span and finishes every
    span it started before it ends; [cursor] starts none. *)
Theorem hooks_close_their_spans
    (cur : CursorWrapper.t) (con : ConnectionWrapper.t) (fac : ConnectionFactory.t)
    (sql proc_name : string) (params : option pyval) (seq exc value tb : pyval)
    (args : list pyval) (kw : gmap string pyval) (w : world) :
  bracketed w (CursorWrapper.execute cur sql params w).2 /\
  bracketed w (CursorWrapper.executemany cur sql seq w).2 /\
  bracketed w (CursorWrapper.callproc cur proc_name params w).2 /\
  bracketed w (ConnectionWrapper.commit con w).2 /\
  bracketed w (ConnectionWrapper.rollback con w).2 /\
  bracketed w (ContextManagerConnectionWrapper.__exit__ con exc value tb w).2 /\
  bracketed w (ContextManagerConnectionWrapper.__enter__ con w).2 /\
  bracketed w (ConnectionFactory.__call__ fac args kw w).2 /\
  spans_started (trace (ConnectionWrapper.cursor con args kw w).2)
  = spans_started (trace w).
Proof.
  unfold CursorWrapper.execute, CursorWrapper.executemany, CursorWrapper.callproc,
    ConnectionWrapper.commit, ConnectionWrapper.rollback,
    ContextManagerConnectionWrapper.__exit__.
  repeat match goal with
  | |- bracketed _ ((_ ← db_span _ _ _ _ _; _) _).2 /\ _ =>
      split; [try destruct params; apply db_hook_bracketed|]
  end.
  destruct w as [cs tr st]. split; [|split].
  - unfold ContextManagerConnectionWrapper.__enter__. run.
    exists [Span (ConnectionWrapper._module_name con +:+ ":begin_transaction") ∅].
    split; [cbn; lia|].
    destruct (connection_enter (ConnectionWrapper._connection con));
      cbn; unfold spans_started, spans_finished; rewrite !omap_app; cbn;
      rewrite ?app_nil_r; split; reflexivity.
  - destruct (factory_call_runs fac args kw cs tr st) as (safe & st' & Hrun & _).
    rewrite Hrun. exists [Span (ConnectionFactory._connect_func_name fac) ∅].
    split; [cbn; lia|]. cbn [snd trace].
    unfold spans_started, spans_finished. rewrite !omap_app. cbn.
    rewrite ?app_nil_r. split; reflexivity.
  - unfold ConnectionWrapper.cursor, mbind, M_bind.
    rewrite new_dict_run. rewrite (dict_get_run _ _ _ _ kw) by lookup.
    unfold call_driver. cbv beta iota delta [current_span trace store].
    destruct (connection_cursor (ConnectionWrapper._connection con) args kw).
    + rewrite (dict_truthy_run _ _ _ _ kw) by lookup. cbn.
      unfold spans_started. rewrite omap_app. cbn. apply app_nil_r.
    + cbn. unfold spans_started. rewrite omap_app. cbn. apply app_nil_r.
Qed.


Lemma store_overwrite (st : list (gmap string pyval)) (x y : gmap string pyval) :
  <[length st := x]> (st ++ [y]) = st ++ [x].
Proof. induction st as [|d st IH]; cbn; [reflexivity | f_equal; exact IH]. Qed.

(** The store after the connect hook. *)
Ltac connect_store kw :=
  cbv beta iota delta [mret M_ret];
  erewrite dict_truthy_run by lookup;
  unfold func_span, with_, mbind, M_bind, get_current_span, log;
  cbv beta iota delta [mret M_ret current_span trace store];
  rewrite (dict_get_run _ _ _ _ kw) by lookup;
  unfold call_driver; cbv beta iota delta [current_span trace store];
  destruct (connect_call _ _ _); rewrite ?construct_run;
  cbv beta iota delta [raise snd current_span trace store];
  rewrite ?store_overwrite, <- ?app_assoc; reflexivity.

(** X10.  The connect hook never changes a dictionary that is already in the
    store, and it never deletes from the caller's keyword dictionary.  With no
    [password] and no [passwd] key it adds one object, the keyword dictionary
    itself, and the recorded connect params point at that very object (no copy
    is made); with one of the keys it adds two, the untouched keyword
    dictionary and the redacted copy.  This holds whether the real connect call
    returns or raises. *)
Theorem connect_store_frame
    (self : ConnectionFactory.t) (args : list pyval) (kw : gmap string pyval)
    (cs : option span) (tr : list event) (st : list (gmap string pyval)) :
  let run := ConnectionFactory.__call__ self args kw (World cs tr st) in
  let secret := bool_decide (is_Some (kw !! "passwd"))
                || bool_decide (is_Some (kw !! "password")) in
  store run.2
  = st ++ kw :: (if secret then [delete "password" (delete "passwd" kw)] else []) /\
  forall proxy a k,
    run.1 = Return proxy ->
    ConnectionWrapper._connect_params proxy = Some (a, k) ->
    k = length st + (if secret then 1 else 0).
Proof.
  cbv zeta. split.
  - unfold ConnectionFactory.__call__, mbind, M_bind, when.
    rewrite new_dict_run.
    rewrite !(dict_contains_run _ _ _ _ kw) by lookup.
    destruct (kw !! "passwd") as [v1|] eqn:E1;
      destruct (kw !! "password") as [v2|] eqn:E2; known_key.
    + rewrite (dict_copy_run _ _ _ _ kw) by lookup.
      rewrite !(dict_contains_run _ _ _ _ kw) by lookup.
      rewrite E1. known_key.
      rewrite (dict_del_run _ _ _ _ kw) by (lookup || eauto).
      rewrite (dict_contains_run _ _ _ _ (delete "passwd" kw)) by lookup.
      rewrite lookup_delete_ne, E2 by discriminate. known_key.
      rewrite (dict_del_run _ _ _ _ (delete "passwd" kw))
        by (lookup || (rewrite lookup_delete_ne, E2 by discriminate; eauto)).
      connect_store kw.
    + rewrite (delete_id (delete "passwd" kw) "password")
        by (rewrite lookup_delete_ne by discriminate; exact E2).
      rewrite (dict_copy_run _ _ _ _ kw) by lookup.
      rewrite !(dict_contains_run _ _ _ _ kw) by lookup.
      rewrite E1. known_key.
      rewrite (dict_del_run _ _ _ _ kw) by (lookup || eauto).
      rewrite (dict_contains_run _ _ _ _ (delete "passwd" kw)) by lookup.
      rewrite lookup_delete_ne, E2 by discriminate. known_key.
      connect_store kw.
    + rewrite (delete_id kw "passwd") by exact E1.
      rewrite (dict_copy_run _ _ _ _ kw) by lookup.
      rewrite !(dict_contains_run _ _ _ _ kw) by lookup.
      rewrite E1. known_key.
      rewrite (dict_contains_run _ _ _ _ kw) by lookup.
      rewrite E2. known_key.
      rewrite (dict_del_run _ _ _ _ kw) by (lookup || eauto).
      connect_store kw.
    + connect_store kw.
  - destruct (factory_call_runs self args kw cs tr st)
      as (safe & st' & Hrun & _ & _ & Haddr).
    rewrite Hrun. cbn [fst]. intros proxy a k Hret Hparams.
    destruct (connect_call (ConnectionFactory._connect_func self) args kw);
      [|discriminate].
    injection Hret as Hproxy. rewrite <- Hproxy in Hparams.
    cbn [ConnectionWrapper._connect_params] in Hparams.
    match type of Hparams with
    | (if ?b then _ else _) = _ => destruct b; [|discriminate Hparams]
    end.
    injection Hparams as _ Hk. rewrite <- Hk. exact Haddr.
Qed.

Lemma forwarded_names (n : string) :
  n ∈ cursor_forwarded <->
  n = "fetchone" \/ n = "fetchmany" \/ n = "fetchall" \/ n = "close" \/
  n = "nextset" \/ n = "setinputsizes" \/ n = "setoutputsizes".
Proof. unfold cursor_forwarded, cursor_required. set_unfold. tauto. Qed.

(** A forwarded name is looked up in the wrapper as in the real object. *)
Ltac forwarded_name :=
  rewrite bool_decide_eq_true_2 by (apply forwarded_names; tauto);
  repeat first
    [ rewrite lookup_insert_eq
    | rewrite lookup_insert_ne by discriminate
    | rewrite lookup_empty ];
  congruence.

(** Every name of a short list has a value. *)
Ltac present :=
  let n := fresh "n" in
  let H := fresh "H" in
  intros n H; set_unfold; intuition (subst; eauto).

(** X11.  What the wrappers forward.  Building a cursor wrapper fails with
    [AttributeError] exactly when the real cursor lacks one of [fetchone],
    [fetchmany], [fetchall], [close], and the error names the first one
    missing in that order.  Otherwise the wrapper gets, under the same name,
    the value the real cursor has for each of those four and for each of
    [nextset], [setinputsizes], [setoutputsizes] that the real cursor has, and
    nothing else: no other attribute of the real cursor is forwarded.  A
    connection wrapper forwards [close] alone, and building it fails exactly
    when the real connection has no [close]. *)
Theorem wrappers_forward_fixed_names (cursor connection : gmap string pyval) :
  match CursorWrapper_bindings cursor with
  | Return self =>
      (forall n, n ∈ cursor_required -> is_Some (cursor !! n)) /\
      (forall n, self !! n
                 = if bool_decide (n ∈ cursor_forwarded) then cursor !! n else None)
  | Raise e =>
      exists before n after,
        e = AttributeError n /\
        cursor_required = before ++ n :: after /\
        cursor !! n = None /\
        (forall n', n' ∈ before -> is_Some (cursor !! n'))
  end /\
  match ConnectionWrapper_bindings connection with
  | Return self =>
      is_Some (connection !! "close") /\
      (forall n, self !! n
                 = if bool_decide (n = "close") then connection !! n else None)
  | Raise e => e = AttributeError "close" /\ connection !! "close" = None
  end.
Proof.
  split.
  - unfold CursorWrapper_bindings, bind_attr_if_present, bind_attr, hasattr, getattr,
      mbind, outcome_bind, mret, outcome_ret.
    destruct (cursor !! "fetchone") as [v1|] eqn:E1;
      [|exists [], "fetchone", ["fetchmany"; "fetchall"; "close"];
        repeat split; [exact E1 | present]].
    destruct (cursor !! "fetchmany") as [v2|] eqn:E2;
      [|exists ["fetchone"], "fetchmany", ["fetchall"; "close"];
        repeat split; [exact E2 | present]].
    destruct (cursor !! "fetchall") as [v3|] eqn:E3;
      [|exists ["fetchone"; "fetchmany"], "fetchall", ["close"];
        repeat split; [exact E3 | present]].
    destruct (cursor !! "close") as [v4|] eqn:E4;
      [|exists ["fetchone"; "fetchmany"; "fetchall"], "close", [];
        repeat split; [exact E4 | present]].
    assert (Hreq : forall n, n ∈ cursor_required -> is_Some (cursor !! n)) by present.
    destruct (cursor !! "nextset") as [v5|] eqn:E5;
      destruct (cursor !! "setinputsizes") as [v6|] eqn:E6;
      destruct (cursor !! "setoutputsizes") as [v7|] eqn:E7.
    all: rewrite ?(bool_decide_eq_true_2 (is_Some (Some _))) by eauto.
    all: rewrite ?(bool_decide_eq_false_2 (is_Some None)) by (apply is_Some_None).
    all: split; [exact Hreq|]; clear Hreq; intros n.
    all: destruct (decide (n = "fetchone")) as [->|];
      [forwarded_name|destruct (decide (n = "fetchmany")) as [->|];
        [forwarded_name|destruct (decide (n = "fetchall")) as [->|];
          [forwarded_name|destruct (decide (n = "close")) as [->|];
            [forwarded_name|destruct (decide (n = "nextset")) as [->|];
              [forwarded_name|destruct (decide (n = "setinputsizes")) as [->|];
                [forwarded_name|destruct (decide (n = "setoutputsizes")) as [->|];
                  [forwarded_name|]]]]]]].
    all: rewrite bool_decide_eq_false_2 by (rewrite forwarded_names; tauto).
    all: rewrite ?lookup_insert_ne by congruence; apply lookup_empty.
  - unfold ConnectionWrapper_bindings, bind_attr, getattr,
      mbind, outcome_bind, mret, outcome_ret.
    destruct (connection !! "close") as [v|] eqn:E; [|split; reflexivity].
    split; [eauto|]. intros n.
    destruct (decide (n = "close")) as [->|Hn].
    + rewrite bool_decide_eq_true_2 by reflexivity.
      rewrite lookup_insert_eq. congruence.
    + rewrite bool_decide_eq_false_2 by exact Hn.
      rewrite lookup_insert_ne by congruence. apply lookup_empty.
Qed.
